(** * VGG16 Cats/Dogs classifier: a shallow embedding of the Streamlit app

    Sources embedded: [src/utils/model_utils.py], [src/utils/image_utils.py],
    [src/components/ui_components.py], [src/components/sidebar.py] and
    [src/app.py].

    Conventions of the embedding.
    - Python floats (numpy float32 from the model, Python floats after
      [float(...)]) are idealised as exact rationals [Q].
    - Streamlit calls ([st.error], [st.success], ...) append an [Event] to a
      log held in the [World]; [st.session_state] is a record of optional
      fields (an absent key is [None]); the [@st.cache_resource] cache of
      [load_model] and the model file on disk are part of the [World] too.
    - Python exceptions are the [Raise] outcome of a state/exception monad;
      [st.stop()] raises Streamlit's [StopException], a [BaseException]
      that no [except Exception] catches, written [Halt].
    - Library code that the repository only calls (PIL, Keras, gdown) is a
      Section variable where its behaviour is opaque (decoding, resampling,
      the forward pass, the network), and is written out where the
      repository relies on its documented behaviour (RGB conversion,
      [np.expand_dims], VGG16 [preprocess_input]). *)

From Stdlib Require Import List String Ascii Bool ZArith QArith Qminmax Lqa Lia.
Import ListNotations.

Open Scope string_scope.

(** ** Python-level data *)

Inductive Exn : Type :=
| TypeError     (* e.g. subscripting [None] *)
| IndexError
| AttributeError
| OSError       (* missing file, failed download *)
| ValueError.   (* corrupt artifact, shape mismatch, ... *)

Inductive Outcome (A : Type) : Type :=
| Ret (a : A)
| Raise (e : Exn)
| Halt.
Arguments Ret {A} a.
Arguments Raise {A} e.
Arguments Halt {A}.

(** Streamlit output and observable library calls, in order. *)
Inductive Event : Type :=
| ev_error (msg : string)
| ev_success (msg : string)
| ev_warning (msg : string)
| ev_balloons
| ev_download                (* gdown.download *)
| ev_keras_load              (* keras.models.load_model *)
| ev_image_open              (* PIL Image.open: the decode step *)
| ev_model_predict           (* model.predict: the forward pass *)
| ev_result_card (label : string) (confidence : Q) (reliable : bool)
| ev_probabilities (cat dog : Q).

(** Python's [a > b] on floats, and the builtin [max(a, b)], which keeps
    the first argument unless the second is strictly greater. *)
Definition Qltb (a b : Q) : bool := negb (Qle_bool b a).
Definition py_max (a b : Q) : Q := if Qltb a b then b else a.

(** [CLASS_NAMES] of model_utils.py. *)
Definition CLASS_NAMES : list string := ["Cat"; "Dog"].

(** The dict returned by [predict_image]. *)
Record PredictionResult : Type := {
  predicted_class : string;
  confidence : Q;
  cat_probability : Q;
  dog_probability : Q;
  all_probabilities : list (string * Q)
}.

(** The batch tensor handed to [model.predict]: batch x height x width x
    channels. *)
Definition Tensor : Type := list (list (list (list Q))).

(** NumPy's [t.shape == (b, h, w, c)] for a nested-list tensor. *)
Definition has_shape4 (b h w c : nat) (t : Tensor) : bool :=
  Nat.eqb (List.length t) b &&
  forallb (fun img =>
    Nat.eqb (List.length img) h &&
    forallb (fun row =>
      Nat.eqb (List.length row) w &&
      forallb (fun px => Nat.eqb (List.length px) c) row) img) t.

(** [st.session_state]; [None] is an absent key. [model] holds a Python
    value that may itself be [None]. *)
Record Session (Model : Type) : Type := {
  ss_model : option (option Model);
  ss_model_loaded : option bool;
  ss_predictions_made : option nat;
  ss_cats_detected : option nat;
  ss_dogs_detected : option nat
}.
Arguments ss_model {Model} s.
Arguments ss_model_loaded {Model} s.
Arguments ss_predictions_made {Model} s.
Arguments ss_cats_detected {Model} s.
Arguments ss_dogs_detected {Model} s.

Record World (Model : Type) : Type := {
  session : Session Model;
  cache : option (option Model);   (* @st.cache_resource of load_model *)
  disk : bool;                     (* vgg16_cat_dog_classifier.h5 exists *)
  log : list Event
}.
Arguments session {Model} w.
Arguments cache {Model} w.
Arguments disk {Model} w.
Arguments log {Model} w.

(** ** The state/exception monad *)

Section Monad.
Variable Model : Type.

Definition M (A : Type) : Type := World Model -> Outcome A * World Model.

Definition ret {A} (a : A) : M A := fun w => (Ret a, w).
Definition raise {A} (e : Exn) : M A := fun w => (Raise e, w).
Definition halt {A} : M A := fun w => (Halt, w).

Definition bind {A B} (m : M A) (f : A -> M B) : M B := fun w =>
  match m w with
  | (Ret a, w') => f a w'
  | (Raise e, w') => (Raise e, w')
  | (Halt, w') => (Halt, w')
  end.

(** [try: m except Exception: h]. *)
Definition try_except {A} (m : M A) (h : Exn -> M A) : M A := fun w =>
  match m w with
  | (Raise e, w') => h e w'
  | r => r
  end.

Definition emit (e : Event) : M unit := fun w =>
  (Ret tt, {| session := session w; cache := cache w; disk := disk w;
              log := log w ++ [e] |}).

Definition get_session : M (Session Model) := fun w => (Ret (session w), w).

Definition put_session (s : Session Model) : M unit := fun w =>
  (Ret tt, {| session := s; cache := cache w; disk := disk w; log := log w |}).

Definition getitem {A} (xs : list A) (i : nat) : M A :=
  match nth_error xs i with
  | Some x => ret x
  | None => raise IndexError
  end.

End Monad.

Arguments ret {Model A} a.
Arguments raise {Model A} e.
Arguments halt {Model A}.
Arguments bind {Model A B} m f.
Arguments try_except {Model A} m h.
Arguments emit {Model} e.
Arguments get_session {Model}.
Arguments put_session {Model} s.
Arguments getitem {Model A} xs i.

(** A new browser session on a fresh process: no session keys, an empty
    [@st.cache_resource] cache, and [on_disk] telling whether the model file
    is already present. *)
Definition empty_session {Model : Type} : Session Model :=
  {| ss_model := None; ss_model_loaded := None; ss_predictions_made := None;
     ss_cats_detected := None; ss_dogs_detected := None |}.

Definition fresh_world {Model : Type} (on_disk : bool) : World Model :=
  {| session := empty_session; cache := None; disk := on_disk; log := [] |}.

Notation "x <- m ;; k" := (bind m (fun x => k))
  (at level 61, m at next level, right associativity).
Notation "' p <- m ;; k" := (bind m (fun x => match x with p => k end))
  (at level 61, p pattern, m at next level, right associativity).
Notation "m ;;; k" := (bind m (fun _ => k))
  (at level 61, right associativity).

(** ** model_utils.py: [predict_image] *)

Section ModelUtils.
Variable Model : Type.
(** [model.predict(x, verbose=0)]: the forward pass, [None] when it
    raises. *)
Variable model_predict : Model -> Tensor -> option (list (list Q)).

Definition call_predict (m : Model) (x : Tensor) : M Model (list (list Q)) :=
  emit ev_model_predict ;;;
  match model_predict m x with
  | Some p => ret p
  | None => raise ValueError
  end.

Definition predict_image (model : option Model) (processed_image : Tensor)
  : M Model (option PredictionResult) :=
  try_except
    (match model with
     | None => ret None
     | Some m =>
       predictions <- call_predict m processed_image ;;
       row <- getitem predictions 0 ;;
       '(cat_prob, dog_prob) <-
         (if Nat.eqb (List.length row) 1 then
            (* Binary classification with sigmoid *)
            prob <- getitem row 0 ;;
            ret ((1 - prob)%Q, prob)
          else
            (* Multi-class with softmax *)
            c <- getitem row 0 ;;
            d <- getitem row 1 ;;
            ret (c, d)) ;;
       let predicted_class := if Qltb cat_prob dog_prob then "Dog" else "Cat" in
       let confidence := py_max cat_prob dog_prob in
       ret (Some {| predicted_class := predicted_class;
                    confidence := confidence;
                    cat_probability := cat_prob;
                    dog_probability := dog_prob;
                    all_probabilities := [("Cat", cat_prob); ("Dog", dog_prob)] |})
     end)
    (fun _ => emit (ev_error "Error making prediction") ;;; ret None).

End ModelUtils.

Arguments call_predict {Model} model_predict m x.
Arguments predict_image {Model} model_predict model processed_image.

(** The result dict [predict_image] builds from a (cat, dog) pair. *)
Definition result_of (cat_prob dog_prob : Q) : PredictionResult :=
  {| predicted_class := if Qltb cat_prob dog_prob then "Dog" else "Cat";
     confidence := py_max cat_prob dog_prob;
     cat_probability := cat_prob;
     dog_probability := dog_prob;
     all_probabilities := [("Cat", cat_prob); ("Dog", dog_prob)] |}.

(** Sum of the per-class probability mapping [all_probabilities]. *)
Definition sum_probs (r : PredictionResult) : Q :=
  fold_right Qplus 0 (map snd (all_probabilities r)).


(** ** image_utils.py *)

(** A Streamlit [UploadedFile]: its name, its size in bytes, its bytes. *)
Record UploadedFile : Type := {
  name : string;
  size : Z;
  file_bytes : list Z
}.

(** [IMAGE_SIZE = (224, 224)] and [ALLOWED_EXTENSIONS]. *)
Definition IMAGE_SIZE : nat * nat := (224%nat, 224%nat).
Definition ALLOWED_EXTENSIONS : list string := ["jpg"; "jpeg"; "png"; "bmp"].

(** [str.lower()] on the ASCII range. *)
Definition ascii_lower (c : ascii) : ascii :=
  let n := nat_of_ascii c in
  if (65 <=? n)%nat && (n <=? 90)%nat then ascii_of_nat (n + 32)%nat else c.

Fixpoint str_lower (s : string) : string :=
  match s with
  | EmptyString => EmptyString
  | String c s' => String (ascii_lower c) (str_lower s')
  end.

(** [s.split('.')]: always at least one (possibly empty) part. *)
Fixpoint split_dot (s : string) : list string :=
  match s with
  | EmptyString => [EmptyString]
  | String c s' =>
    let parts := split_dot s' in
    if Ascii.eqb c "." then EmptyString :: parts
    else match parts with
         | p :: ps => String c p :: ps
         | [] => [String c EmptyString]
         end
  end.

(** [uploaded_file.name.split('.')[-1].lower()]. *)
Definition file_extension (file_name : string) : string :=
  str_lower (last (split_dot file_name) EmptyString).

Definition MAX_UPLOAD_BYTES : Z := (10 * 1024 * 1024)%Z.

Definition msg_bad_format : string :=
  "Unsupported file format. Please upload: jpg, jpeg, png, bmp".
Definition msg_too_large : string :=
  "File too large. Please upload an image smaller than 10MB.".

Definition validate_image {Model : Type} (uploaded_file : option UploadedFile)
  : M Model bool :=
  match uploaded_file with
  | None => ret false
  | Some f =>
    let ext := file_extension (name f) in
    if negb (existsb (String.eqb ext) ALLOWED_EXTENSIONS) then
      emit (ev_error msg_bad_format) ;;; ret false
    else if (MAX_UPLOAD_BYTES <? size f)%Z then
      emit (ev_error msg_too_large) ;;; ret false
    else ret true
  end.

(** PIL images. Pixel data of an ["RGB"] image are triples; other modes keep
    their raw bands. [img_size] is PIL's [(width, height)]. *)
Inductive PilMode : Type :=
| Mode_1 | Mode_L | Mode_LA | Mode_P | Mode_PA | Mode_RGBA | Mode_CMYK
| Mode_YCbCr | Mode_I | Mode_F.

Definition mode_name (m : PilMode) : string :=
  match m with
  | Mode_1 => "1" | Mode_L => "L" | Mode_LA => "LA" | Mode_P => "P"
  | Mode_PA => "PA" | Mode_RGBA => "RGBA" | Mode_CMYK => "CMYK"
  | Mode_YCbCr => "YCbCr" | Mode_I => "I" | Mode_F => "F"
  end.

Definition RGB : Type := (Z * Z * Z)%type.

Inductive PixelData : Type :=
| RGBPixels (rows : list (list RGB))
| ModePixels (mode : PilMode) (rows : list (list (list Z))).

Record Image : Type := {
  img_size : nat * nat;
  img_data : PixelData
}.

Definition image_mode (im : Image) : string :=
  match img_data im with
  | RGBPixels _ => "RGB"
  | ModePixels m _ => mode_name m
  end.

Definition rgb_rows (im : Image) : list (list RGB) :=
  match img_data im with
  | RGBPixels rows => rows
  | ModePixels _ _ => []
  end.

Definition rgb_to_list (px : RGB) : list Z :=
  let '(r, g, b) := px in [r; g; b].

(** An [h] x [w] grid, row [y], column [x]. *)
Definition grid {A : Type} (w h : nat) (f : nat -> nat -> A) : list (list A) :=
  map (fun y => map (fun x => f y x) (seq 0 w)) (seq 0 h).

(** NumPy after [np.array]: uint8 values; the batch axis comes from
    [np.expand_dims(a, axis=0)]. *)
Definition ArrayZ3 : Type := list (list (list Z)).

Definition np_expand_dims0 (a : ArrayZ3) : list ArrayZ3 := [a].

(** Keras [vgg16.preprocess_input] (mode "caffe", channels last): cast to
    float, [x = x[..., ::-1]] (RGB to BGR), then [x[..., k] -= mean[k]] for
    [mean = [103.939, 116.779, 123.68]]; fewer than three channels raise. *)
Definition caffe_pixel (px : list Z) : option (list Q) :=
  match rev (map inject_Z px) with
  | c0 :: c1 :: c2 :: t =>
    Some ((c0 - (103939 # 1000)) :: (c1 - (116779 # 1000)) :: (c2 - (12368 # 100)) :: t)
  | _ => None
  end.

Fixpoint omap {A B : Type} (f : A -> option B) (l : list A) : option (list B) :=
  match l with
  | [] => Some []
  | x :: xs =>
    match f x, omap f xs with
    | Some y, Some ys => Some (y :: ys)
    | _, _ => None
    end
  end.

Definition preprocess_input (x : list ArrayZ3) : option Tensor :=
  omap (omap (omap caffe_pixel)) x.

Section ImageUtils.
Context {Model : Type}.
(** [Image.open]: decoding the upload; [None] when PIL raises. *)
Variable open_image : UploadedFile -> option Image.
(** [image.convert('RGB')] on one pixel of a non-RGB mode. *)
Variable convert_px : PilMode -> list Z -> RGB.
(** [image.resize(size)] with PIL's default filter: the value of output
    pixel [(x, y)] of an image resized to [size]. *)
Variable resample_rgb : list (list RGB) -> nat * nat -> nat * nat -> RGB.
Variable resample_bands : list (list (list Z)) -> nat * nat -> nat * nat -> list Z.

Definition image_open (f : UploadedFile) : M Model Image :=
  emit ev_image_open ;;;
  match open_image f with
  | Some im => ret im
  | None => raise OSError
  end.

Definition convert_rgb (im : Image) : Image :=
  match img_data im with
  | RGBPixels _ => im
  | ModePixels m rows =>
    {| img_size := img_size im; img_data := RGBPixels (map (map (convert_px m)) rows) |}
  end.

Definition resize (im : Image) (sz : nat * nat) : Image :=
  let '(w, h) := sz in
  {| img_size := sz;
     img_data :=
       match img_data im with
       | RGBPixels rows => RGBPixels (grid w h (fun y x => resample_rgb rows sz (x, y)))
       | ModePixels m rows =>
         ModePixels m (grid w h (fun y x => resample_bands rows sz (x, y)))
       end |}.

(** [np.array(image)]: height x width x bands. *)
Definition np_array (im : Image) : ArrayZ3 :=
  match img_data im with
  | RGBPixels rows => map (map rgb_to_list) rows
  | ModePixels _ rows => rows
  end.

Definition preprocess_image (uploaded_file : UploadedFile)
  : M Model (option (Tensor * Image)) :=
  try_except
    (image <- image_open uploaded_file ;;
     let image := if negb (String.eqb (image_mode image) "RGB")
                  then convert_rgb image else image in
     let original_image := image in
     let image := resize image IMAGE_SIZE in
     let image_array := np_array image in
     let image_array := np_expand_dims0 image_array in
     match preprocess_input image_array with
     | Some t => ret (Some (t, original_image))
     | None => raise IndexError
     end)
    (fun _ => emit (ev_error "Error processing image") ;;; ret None).

End ImageUtils.

(** ** Session-state, cache and disk accessors *)

Definition set_model {Model : Type} (s : Session Model) (v : option (option Model))
  : Session Model :=
  {| ss_model := v; ss_model_loaded := ss_model_loaded s;
     ss_predictions_made := ss_predictions_made s;
     ss_cats_detected := ss_cats_detected s; ss_dogs_detected := ss_dogs_detected s |}.

Definition set_model_loaded {Model : Type} (s : Session Model) (v : option bool)
  : Session Model :=
  {| ss_model := ss_model s; ss_model_loaded := v;
     ss_predictions_made := ss_predictions_made s;
     ss_cats_detected := ss_cats_detected s; ss_dogs_detected := ss_dogs_detected s |}.

Definition set_counters {Model : Type} (s : Session Model) (pm cats dogs : option nat)
  : Session Model :=
  {| ss_model := ss_model s; ss_model_loaded := ss_model_loaded s;
     ss_predictions_made := pm; ss_cats_detected := cats; ss_dogs_detected := dogs |}.

Definition get_cache {Model : Type} : M Model (option (option Model)) :=
  fun w => (Ret (cache w), w).

Definition put_cache {Model : Type} (c : option (option Model)) : M Model unit :=
  fun w => (Ret tt, {| session := session w; cache := c; disk := disk w; log := log w |}).

Definition get_disk {Model : Type} : M Model bool := fun w => (Ret (disk w), w).

Definition put_disk {Model : Type} (d : bool) : M Model unit :=
  fun w => (Ret tt, {| session := session w; cache := cache w; disk := d; log := log w |}).

(** Reading [st.session_state.<key>]: an absent key raises. *)
Definition read_key {Model A : Type} (v : option A) : M Model A :=
  match v with
  | Some a => ret a
  | None => raise AttributeError
  end.

(** ** model_utils.py: [load_model] under [@st.cache_resource] *)

Section LoadModel.
Context {Model : Type}.
(** [gdown.download(url, path)]: [None] when it raises, [Some b] when it
    returns, [b] telling whether the file was written. *)
Variable gdown_download : option bool.
(** [keras.models.load_model] on a file that exists: [None] when the
    artifact is corrupt or incompatible (it raises). *)
Variable keras_artifact : option Model.

Definition load_model : M Model (option Model) :=
  try_except
    (present <- get_disk ;;
     (if negb present then
        emit ev_download ;;;
        match gdown_download with
        | None => raise OSError
        | Some written =>
          put_disk written ;;; emit (ev_success "Model downloaded successfully!")
        end
      else ret tt) ;;;
     emit ev_keras_load ;;;
     present' <- get_disk ;;
     if present' then
       match keras_artifact with
       | Some m => ret (Some m)
       | None => raise ValueError
       end
     else raise OSError)
    (fun _ => emit (ev_error "Error loading model") ;;; ret None).

(** [@st.cache_resource]: the first return value is kept for the life of
    the process (a [None] return included); exceptions are not cached. *)
Definition load_model_cached : M Model (option Model) :=
  c <- get_cache ;;
  match c with
  | Some v => ret v
  | None => v <- load_model ;; put_cache (Some v) ;;; ret v
  end.

End LoadModel.

(** ** sidebar.py and ui_components.py *)

(** The dict returned by [render_sidebar]; the widgets' values are the
    user's input. *)
Record Settings : Type := {
  confidence_threshold : Q;
  show_probabilities : bool;
  show_image_info : bool;
  show_processing_steps : bool;
  theme : string
}.

(** [render_sidebar]: the session-stats block initialises the three
    counters when absent, then reads them for display. *)
Definition render_sidebar {Model : Type} (widgets : Settings) : M Model Settings :=
  s <- get_session ;;
  let pm := match ss_predictions_made s with Some n => n | None => 0%nat end in
  let cats := match ss_cats_detected s with Some n => n | None => 0%nat end in
  let dogs := match ss_dogs_detected s with Some n => n | None => 0%nat end in
  put_session (set_counters s (Some pm) (Some cats) (Some dogs)) ;;;
  ret widgets.

Definition render_prediction_results {Model : Type}
    (results : option PredictionResult) (settings : Settings) : M Model unit :=
  match results with
  | None => emit (ev_error "Could not generate prediction. Please try again with a different image.")
  | Some r =>
    (* Update session statistics *)
    s <- get_session ;;
    pm <- read_key (ss_predictions_made s) ;;
    put_session (set_counters s (Some (S pm)) (ss_cats_detected s) (ss_dogs_detected s)) ;;;
    s <- get_session ;;
    (if String.eqb (predicted_class r) "Cat" then
       c <- read_key (ss_cats_detected s) ;;
       put_session (set_counters s (ss_predictions_made s) (Some (S c)) (ss_dogs_detected s))
     else
       d <- read_key (ss_dogs_detected s) ;;
       put_session (set_counters s (ss_predictions_made s) (ss_cats_detected s) (Some (S d)))) ;;;
    let reliable := Qle_bool (confidence_threshold settings) (confidence r) in
    emit (ev_result_card (predicted_class r) (confidence r) reliable) ;;;
    (if reliable
     then emit (ev_success "High confidence prediction!")
     else emit (ev_warning "Low confidence prediction. Consider uploading a clearer image.")) ;;;
    (if show_probabilities settings
     then emit (ev_probabilities (cat_probability r) (dog_probability r))
     else ret tt)
  end.

(** [render_confidence_interpretation]: the confidence level shown in the
    "AI Confidence Analysis" box. *)
Definition confidence_level (confidence : Q) : string :=
  if Qle_bool (9 # 10) confidence then "Extremely High"
  else if Qle_bool (8 # 10) confidence then "High"
  else if Qle_bool (7 # 10) confidence then "Moderate"
  else if Qle_bool (6 # 10) confidence then "Low"
  else "Very Low".

(** The order of the five levels, lowest first. *)
Definition level_rank (level : string) : nat :=
  if String.eqb level "Extremely High" then 4
  else if String.eqb level "High" then 3
  else if String.eqb level "Moderate" then 2
  else if String.eqb level "Low" then 1
  else 0.

Section ImageDisplay.
Context {Model : Type}.
Variable open_image : UploadedFile -> option Image.
Variable convert_px : PilMode -> list Z -> RGB.
Variable resample_rgb : list (list RGB) -> nat * nat -> nat * nat -> RGB.
Variable resample_bands : list (list (list Z)) -> nat * nat -> nat * nat -> list Z.

Definition render_image_display (uploaded_file : UploadedFile) (settings : Settings)
  : M Model (option (Tensor * Image)) :=
  ok <- validate_image (Some uploaded_file) ;;
  if negb ok then
    emit (ev_error "Invalid image file. Please upload a valid JPG, PNG, or BMP image.") ;;;
    ret None
  else
    r <- preprocess_image open_image convert_px resample_rgb resample_bands uploaded_file ;;
    match r with
    | None =>
      emit (ev_error "Failed to process the image. Please try a different file.") ;;;
      ret None
    | Some (processed_image, original_image) =>
      emit (ev_success "Image processed successfully!") ;;;
      ret (Some (processed_image, original_image))
    end.

End ImageDisplay.

(** ** app.py *)

(** What the user does in one script run: the sidebar widgets, the file
    uploader and whether the "Analyze" button was clicked. *)
Record UserInput : Type := {
  widgets : Settings;
  upload : option UploadedFile;
  predict_clicked : bool
}.

Definition msg_load_failed : string :=
  "Failed to load model. Please check if the model file exists.".
Definition msg_model_unavailable : string :=
  "Model not available. Please refresh the page.".
Definition msg_prediction_failed : string :=
  "Failed to make prediction. Please try again.".
Definition msg_application_error : string := "Application Error".

Section App.
Context {Model : Type}.
Variable gdown_download : option bool.
Variable keras_artifact : option Model.
Variable model_predict : Model -> Tensor -> option (list (list Q)).
Variable open_image : UploadedFile -> option Image.
Variable convert_px : PilMode -> list Z -> RGB.
Variable resample_rgb : list (list RGB) -> nat * nat -> nat * nat -> RGB.
Variable resample_bands : list (list (list Z)) -> nat * nat -> nat * nat -> list Z.

Definition main (input : UserInput) : M Model unit :=
  (* Initialize session state *)
  s <- get_session ;;
  (match ss_model s with
   | None => put_session (set_model s (Some None))
   | Some _ => ret tt
   end) ;;;
  s <- get_session ;;
  (match ss_model_loaded s with
   | None => put_session (set_model_loaded s (Some false))
   | Some _ => ret tt
   end) ;;;
  (* Load model on first run *)
  s <- get_session ;;
  loaded <- read_key (ss_model_loaded s) ;;
  (if negb loaded then
     mdl <- load_model_cached gdown_download keras_artifact ;;
     s <- get_session ;;
     put_session (set_model_loaded (set_model s (Some mdl)) (Some true)) ;;;
     match mdl with
     | Some _ => emit (ev_success "Model loaded successfully!")
     | None => emit (ev_error msg_load_failed) ;;; halt
     end
   else ret tt) ;;;
  settings <- render_sidebar (widgets input) ;;
  (* Check if model is loaded before proceeding *)
  s <- get_session ;;
  model <- read_key (ss_model s) ;;
  (match model with
   | None => emit (ev_error msg_model_unavailable) ;;; halt
   | Some _ => ret tt
   end) ;;;
  match upload input with
  | None => ret tt
  | Some uploaded_file =>
    r <- render_image_display open_image convert_px resample_rgb resample_bands
           uploaded_file settings ;;
    match r with
    | None => ret tt
    | Some (processed_image, _) =>
      if predict_clicked input then
        results <- predict_image model_predict model processed_image ;;
        (match results with
         | Some _ => render_prediction_results results settings
         | None => ret tt
         end) ;;;
        (* [if results['confidence'] >= settings['confidence_threshold']:]
           sits at the level of [if results:], and its [else] carries the
           failure message *)
        match results with
        | None => raise TypeError
        | Some res =>
          if Qle_bool (confidence_threshold settings) (confidence res)
          then emit ev_balloons
          else emit (ev_error msg_prediction_failed)
        end
      else ret tt
    end
  end.

(** [if __name__ == "__main__": try: main(); render_footer() except
    Exception as e: st.error(...)]. *)
Definition run_script (input : UserInput) : M Model unit :=
  try_except
    (main input ;;; ret tt)
    (fun _ => emit (ev_error msg_application_error) ;;;
              emit (ev_error "Please refresh the page or contact support if the problem persists.")).

(** Interactions with the running process: a script rerun in the current
    browser session, or a new browser session (fresh session state, same
    process, same cache). A restart is a new [fresh_world]. *)
Inductive Action : Type :=
| Rerun (i : UserInput)
| NewSession.

Definition step (w : World Model) (a : Action) : World Model :=
  match a with
  | Rerun i => snd (run_script i w)
  | NewSession =>
    {| session := empty_session; cache := cache w; disk := disk w; log := log w |}
  end.

Definition run_all (acts : list Action) (w : World Model) : World Model :=
  fold_left step acts w.

End App.

(** ** Example inputs *)

(** A 500 x 300 PNG with an alpha channel (PIL mode "RGBA"). *)
Definition example_png_500x300 : Image :=
  {| img_size := (500%nat, 300%nat);
     img_data := ModePixels Mode_RGBA (repeat (repeat [200; 150; 100; 255]%Z 500) 300) |}.

Definition example_upload (file_name : string) (bytes : Z) : UploadedFile :=
  {| name := file_name; size := bytes; file_bytes := [] |}.

(** Stand-ins for the library primitives at the example inputs: decoding
    always yields [example_png_500x300], RGBA to RGB drops alpha, and a
    resampler that reads the source pixel at the same coordinates. *)
Definition example_open (_ : UploadedFile) : option Image := Some example_png_500x300.

Definition example_convert (_ : PilMode) (px : list Z) : RGB :=
  match px with
  | r :: g :: b :: _ => (r, g, b)
  | _ => (0, 0, 0)%Z
  end.

Definition example_resample (rows : list (list RGB)) (_ : nat * nat) (xy : nat * nat) : RGB :=
  let '(x, y) := xy in nth x (nth y rows []) (0, 0, 0)%Z.

Definition example_resample_bands (_ : list (list (list Z))) (_ : nat * nat) (_ : nat * nat)
  : list Z := [].

Definition example_settings (threshold : Q) : Settings :=
  {| confidence_threshold := threshold; show_probabilities := true;
     show_image_info := false; show_processing_steps := true; theme := "Dark" |}.

(** A rerun right after a click on "Analyze" with [f] uploaded. *)
Definition example_click (f : UploadedFile) (threshold : Q) : UserInput :=
  {| widgets := example_settings threshold; upload := Some f; predict_clicked := true |}.

(** A session whose model loaded earlier and that has made no prediction
    yet. *)
Definition example_loaded_world : World unit :=
  {| session := {| ss_model := Some (Some tt); ss_model_loaded := Some true;
                   ss_predictions_made := Some 0%nat; ss_cats_detected := Some 0%nat;
                   ss_dogs_detected := Some 0%nat |};
     cache := Some (Some tt); disk := true; log := [] |}.

(** ** State predicates used by the statements below *)

(** The same user input with another value of the confidence-threshold
    slider. *)
Definition with_threshold (i : UserInput) (threshold : Q) : UserInput :=
  {| widgets := {| confidence_threshold := threshold;
                   show_probabilities := show_probabilities (widgets i);
                   show_image_info := show_image_info (widgets i);
                   show_processing_steps := show_processing_steps (widgets i);
                   theme := theme (widgets i) |};
     upload := upload i;
     predict_clicked := predict_clicked i |}.

(** What a run computes, as opposed to how it presents it: forward passes,
    the label and confidence of each result card, and the probabilities
    shown; the "reliable" flag of a card and the success, warning and
    balloon decorations are presentation. *)
Definition computed_event (e : Event) : list Event :=
  match e with
  | ev_model_predict => [ev_model_predict]
  | ev_result_card l c _ => [ev_result_card l c true]
  | ev_probabilities c d => [ev_probabilities c d]
  | _ => []
  end.

Definition computed_view (l : list Event) : list Event := flat_map computed_event l.

(** Two runs agree on everything they compute: the same outcome, session
    state, cache, disk, and the same [computed_view] of their logs. *)
Definition same_computation {Model A : Type} (r1 r2 : Outcome A * World Model) : Prop :=
  fst r1 = fst r2 /\ session (snd r1) = session (snd r2) /\
  cache (snd r1) = cache (snd r2) /\ disk (snd r1) = disk (snd r2) /\
  computed_view (log (snd r1)) = computed_view (log (snd r2)).

(** The session statistics: the three counters are absent (before the
    sidebar first runs) or all present with
    [predictions_made = cats_detected + dogs_detected]. *)
Definition counters_inv {Model : Type} (s : Session Model) : Prop :=
  match ss_predictions_made s, ss_cats_detected s, ss_dogs_detected s with
  | None, None, None => True
  | Some pm, Some cats, Some dogs => pm = (cats + dogs)%nat
  | _, _, _ => False
  end.

(** The counters as the sidebar displays them (an absent key shows 0). *)
Definition counts {Model : Type} (s : Session Model) : nat * nat * nat :=
  (match ss_predictions_made s with Some n => n | None => 0%nat end,
   match ss_cats_detected s with Some n => n | None => 0%nat end,
   match ss_dogs_detected s with Some n => n | None => 0%nat end).

(** The labels of the result cards shown in a piece of log: one per
    completed prediction. *)
Definition card_label (e : Event) : list string :=
  match e with
  | ev_result_card label _ _ => [label]
  | _ => []
  end.

Definition card_labels (l : list Event) : list string := flat_map card_label l.

(** One completed prediction with the given label: [predictions_made] and
    the counter of that label go up by one. *)
Definition add_card (n : nat * nat * nat) (label : string) : nat * nat * nat :=
  let '(pm, cats, dogs) := n in
  if String.eqb label "Cat" then (S pm, S cats, dogs) else (S pm, cats, S dogs).

(** From [w] to [w']: the invariant holds in [w'], the log only grew, and
    the counters moved by exactly one [add_card] per result card shown in
    between. *)
Definition counted {Model : Type} (w w' : World Model) : Prop :=
  counters_inv (session w') /\
  exists new, log w' = (log w ++ new)%list /\
  counts (session w') = fold_left add_card (card_labels new) (counts (session w)).

(** A computation keeps the counters: from any state satisfying the
    invariant, its final state is [counted] from the initial one. *)
Definition keeps_counters {Model A : Type} (m : M Model A) : Prop :=
  forall w, counters_inv (session w) -> counted w (snd (m w)).

(** The same, from the states whose session is [s]. *)
Definition keeps_counters_at {Model A : Type} (s : Session Model) (m : M Model A) : Prop :=
  counters_inv s -> forall w, session w = s -> counted w (snd (m w)).

(** The log only grew from [w] to [w'], by events none of which is [bad]. *)
Definition log_avoids {Model : Type} (bad : Event -> bool) (w w' : World Model) : Prop :=
  exists new, log w' = (log w ++ new)%list /\ forallb (fun e => negb (bad e)) new = true.

(** A computation keeps the state predicate [I] and shows no [bad] event. *)
Definition preserves {Model A : Type} (I : World Model -> Prop) (bad : Event -> bool)
    (m : M Model A) : Prop :=
  forall w, I w -> I (snd (m w)) /\ log_avoids bad w (snd (m w)).

(** Decoding an upload or running the model. *)
Definition is_decode_or_forward (e : Event) : bool :=
  match e with
  | ev_image_open | ev_model_predict => true
  | _ => false
  end.

Definition is_forward (e : Event) : bool :=
  match e with
  | ev_model_predict => true
  | _ => false
  end.

(** Downloading or loading the model file. *)
Definition is_model_fetch (e : Event) : bool :=
  match e with
  | ev_download | ev_keras_load => true
  | _ => false
  end.

(** The process is in the state a failed model load leaves: the cache is
    empty or holds [None], the session's [model] is absent or [None], the
    next load would fail again (corrupt artifact, or no file and no
    successful download), and no forward pass has run. *)
Definition load_failed_state {Model : Type} (gdown_download : option bool)
    (keras_artifact : option Model) (w : World Model) : Prop :=
  (cache w = None \/ cache w = Some None) /\
  (ss_model (session w) = None \/ ss_model (session w) = Some None) /\
  (keras_artifact = None \/ (disk w = false /\ gdown_download <> Some true)) /\
  ~ In ev_model_predict (log w).

(** ** The VGG16 ImageNet convention *)

(** The per-pixel transform the comment of [preprocess_image] documents
    ("RGB->BGR conversion + mean subtraction [103.939, 116.779, 123.68] for
    BGR channels"), written from those words to be compared with the
    embedded [preprocess_input]. *)
Definition vgg16_bgr (px : RGB) : list Q :=
  let '(r, g, b) := px in
  [inject_Z b - (103939 # 1000); inject_Z g - (116779 # 1000);
   inject_Z r - (12368 # 100)].

(** * Proofs *)

(** ** Arithmetic of the comparisons used by the code *)

Lemma Qltb_spec (a b : Q) : Qltb a b = true <-> a < b.
Proof.
  unfold Qltb. rewrite negb_true_iff. split; intro H.
  - apply Qnot_le_lt. intro H'. apply Qle_bool_iff in H'. congruence.
  - destruct (Qle_bool b a) eqn:E; [|reflexivity].
    apply Qle_bool_iff in E. exfalso. apply (Qlt_not_le a b); assumption.
Qed.

Lemma Qltb_false (a b : Q) : Qltb a b = false <-> b <= a.
Proof.
  split; intro H.
  - apply Qnot_lt_le. intro H'. apply Qltb_spec in H'. congruence.
  - destruct (Qltb a b) eqn:E; [|reflexivity].
    apply Qltb_spec in E. exfalso. apply (Qlt_not_le a b); assumption.
Qed.

Lemma py_max_Qmax (a b : Q) : py_max a b == Qmax a b.
Proof.
  unfold py_max. destruct (Qltb a b) eqn:E.
  - apply Qltb_spec in E. symmetry. apply Q.max_r. apply Qlt_le_weak; exact E.
  - apply Qltb_false in E. symmetry. apply Q.max_l. exact E.
Qed.

(** ** [predict_image] on a successful forward pass *)

Section PredictImage.
Context {Model : Type} (model_predict : Model -> Tensor -> option (list (list Q))).

Lemma predict_image_sigmoid (m : Model) (x : Tensor) (w : World Model)
    (p : Q) (rest : list (list Q)) :
  model_predict m x = Some ([p] :: rest) ->
  exists w', predict_image model_predict (Some m) x w
             = (Ret (Some (result_of (1 - p) p)), w').
Proof.
  intro H. unfold predict_image, call_predict. cbn. rewrite H. cbn.
  eexists. reflexivity.
Qed.

Lemma predict_image_softmax (m : Model) (x : Tensor) (w : World Model)
    (c d : Q) (tl : list Q) (rest : list (list Q)) :
  model_predict m x = Some ((c :: d :: tl) :: rest) ->
  exists w', predict_image model_predict (Some m) x w
             = (Ret (Some (result_of c d)), w').
Proof.
  intro H. unfold predict_image, call_predict. cbn. rewrite H. cbn.
  eexists. reflexivity.
Qed.

End PredictImage.

Lemma result_of_complement (p : Q) :
  (predicted_class (result_of (1 - p) p) = "Dog" <-> 1 # 2 < p) /\
  (predicted_class (result_of (1 - p) p) = "Cat" <-> p <= 1 # 2) /\
  confidence (result_of (1 - p) p) == Qmax p (1 - p).
Proof.
  unfold result_of; cbn.
  split; [|split].
  - destruct (Qltb (1 - p) p) eqn:E.
    + apply Qltb_spec in E. split; intro; [lra | reflexivity].
    + apply Qltb_false in E. split; intro H; [discriminate | lra].
  - destruct (Qltb (1 - p) p) eqn:E.
    + apply Qltb_spec in E. split; intro H; [discriminate | lra].
    + apply Qltb_false in E. split; intro; [lra | reflexivity].
  - rewrite py_max_Qmax. apply Q.max_comm.
Qed.

Lemma result_of_bounds (p : Q) :
  0 <= p <= 1 ->
  In (predicted_class (result_of (1 - p) p)) CLASS_NAMES /\
  1 # 2 <= confidence (result_of (1 - p) p) <= 1.
Proof.
  intros [H0 H1]. unfold result_of, py_max; cbn.
  destruct (Qltb (1 - p) p) eqn:E.
  - apply Qltb_spec in E. split; [right; left; reflexivity | lra].
  - apply Qltb_false in E. split; [left; reflexivity | lra].
Qed.

(** ** Claims on [predict_image] *)

(** C1 (amended). When the forward pass yields the dog probability [p] as a
    sigmoid scalar [[p]] or as the pair [[1 - p; p]] (cat first, the order of
    [CLASS_NAMES]), [predict_image] returns "Dog" exactly when [p > 1/2],
    "Cat" exactly when [p <= 1/2] (a tie goes to "Cat"), and confidence
    [max(p, 1 - p)]. *)
Theorem predict_image_label_confidence {Model : Type}
    (model_predict : Model -> Tensor -> option (list (list Q)))
    (m : Model) (x : Tensor) (w : World Model) (p : Q) (rest : list (list Q)) :
  model_predict m x = Some ([p] :: rest) \/
  model_predict m x = Some ([1 - p; p] :: rest) ->
  exists r w', predict_image model_predict (Some m) x w = (Ret (Some r), w') /\
    (predicted_class r = "Dog" <-> 1 # 2 < p) /\
    (predicted_class r = "Cat" <-> p <= 1 # 2) /\
    confidence r == Qmax p (1 - p).
Proof.
  intros [H | H].
  - destruct (predict_image_sigmoid model_predict m x w p rest H) as [w' E].
    exists (result_of (1 - p) p), w'. split; [exact E | apply result_of_complement].
  - destruct (predict_image_softmax model_predict m x w (1 - p) p [] rest H)
      as [w' E].
    exists (result_of (1 - p) p), w'. split; [exact E | apply result_of_complement].
Qed.

Lemma predict_image_label_confidence_witness :
  ((fun (_ : unit) (_ : Tensor) => Some [[3 # 4]]) tt [] = Some [[3 # 4]] \/
   (fun (_ : unit) (_ : Tensor) => Some [[3 # 4]]) tt [] = Some [[1 - (3 # 4); 3 # 4]]) /\
  exists r w',
    predict_image (fun (_ : unit) (_ : Tensor) => Some [[3 # 4]]) (Some tt) []
      (fresh_world true) = (Ret (Some r), w') /\
    (predicted_class r = "Dog" <-> 1 # 2 < 3 # 4) /\
    (predicted_class r = "Cat" <-> 3 # 4 <= 1 # 2) /\
    confidence r == Qmax (3 # 4) (1 - (3 # 4)).
Proof.
  split; [left; reflexivity|].
  apply (predict_image_label_confidence (fun (_ : unit) (_ : Tensor) => Some [[3 # 4]])
           tt [] (fresh_world true) (3 # 4) []).
  left; reflexivity.
Defined.

(** C1 as stated fails at the tie [p = 1/2]: the pair [[1/2; 1/2]] is
    labelled "Cat" although [p < 1/2] is false. *)
Lemma predict_image_tie_is_cat :
  exists r w',
    predict_image (fun (_ : unit) (_ : Tensor) => Some [[1 - (1 # 2); 1 # 2]])
      (Some tt) [] (fresh_world true) = (Ret (Some r), w') /\
    ~ (predicted_class r = "Cat" <-> 1 # 2 < 1 # 2).
Proof.
  eexists _, _. split; [reflexivity|].
  cbn. intros [H _]. apply (Qlt_irrefl (1 # 2)), H. reflexivity.
Qed.

(** C7. On a successful prediction the per-class probabilities sum to 1: in
    the sigmoid branch [cat_probability = 1 - dog_probability] exactly, and
    in the two-element branch whenever the model's pair sums to 1. *)
Theorem predict_image_probabilities_sum {Model : Type}
    (model_predict : Model -> Tensor -> option (list (list Q)))
    (m : Model) (x : Tensor) (w : World Model) :
  (exists p rest, model_predict m x = Some ([p] :: rest)) \/
  (exists c d rest, model_predict m x = Some ([c; d] :: rest) /\ c + d == 1) ->
  exists r w', predict_image model_predict (Some m) x w = (Ret (Some r), w') /\
    sum_probs r == 1 /\
    cat_probability r + dog_probability r == 1 /\
    (forall p rest, model_predict m x = Some ([p] :: rest) ->
       cat_probability r = (1 - dog_probability r)%Q).
Proof.
  intros [[p [rest H]] | [c [d [rest [H Hs]]]]].
  - destruct (predict_image_sigmoid model_predict m x w p rest H) as [w' E].
    exists (result_of (1 - p) p), w'. unfold sum_probs, result_of; cbn.
    split; [exact E|]. split; [lra|]. split; [lra|].
    intros p' rest' H'. rewrite H in H'. injection H' as -> ->. reflexivity.
  - destruct (predict_image_softmax model_predict m x w c d [] rest H) as [w' E].
    exists (result_of c d), w'. unfold sum_probs, result_of; cbn.
    split; [exact E|]. split; [lra|]. split; [lra|].
    intros p' rest' H'. rewrite H in H'. discriminate.
Qed.

Lemma predict_image_probabilities_sum_witness :
  ((exists p rest, (fun (_ : unit) (_ : Tensor) => Some [[1 # 4; 3 # 4]]) tt []
                   = Some ([p] :: rest)) \/
   (exists c d rest, (fun (_ : unit) (_ : Tensor) => Some [[1 # 4; 3 # 4]]) tt []
                   = Some ([c; d] :: rest) /\ c + d == 1)) /\
  exists r w',
    predict_image (fun (_ : unit) (_ : Tensor) => Some [[1 # 4; 3 # 4]]) (Some tt) []
      (fresh_world true) = (Ret (Some r), w') /\
    sum_probs r == 1 /\ cat_probability r + dog_probability r == 1 /\
    (forall p rest, (fun (_ : unit) (_ : Tensor) => Some [[1 # 4; 3 # 4]]) tt []
                    = Some ([p] :: rest) ->
       cat_probability r = (1 - dog_probability r)%Q).
Proof.
  assert (Hin : (exists p rest, (fun (_ : unit) (_ : Tensor) => Some [[1 # 4; 3 # 4]]) tt []
                   = Some ([p] :: rest)) \/
   (exists c d rest, (fun (_ : unit) (_ : Tensor) => Some [[1 # 4; 3 # 4]]) tt []
                   = Some ([c; d] :: rest) /\ c + d == 1)).
  { right. exists (1 # 4), (3 # 4), []. split; reflexivity. }
  split; [exact Hin|].
  apply (predict_image_probabilities_sum
           (fun (_ : unit) (_ : Tensor) => Some [[1 # 4; 3 # 4]]) tt []
           (fresh_world true) Hin).
Defined.

(** C8. For a complementary pair with dog probability [p] in [0, 1], the
    prediction's label is one of [CLASS_NAMES] ("Cat" or "Dog") and its
    confidence lies in [1/2, 1]. *)
Theorem predict_image_confidence_bounds {Model : Type}
    (model_predict : Model -> Tensor -> option (list (list Q)))
    (m : Model) (x : Tensor) (w : World Model) (p : Q) (rest : list (list Q)) :
  0 <= p <= 1 ->
  model_predict m x = Some ([p] :: rest) \/
  model_predict m x = Some ([1 - p; p] :: rest) ->
  exists r w', predict_image model_predict (Some m) x w = (Ret (Some r), w') /\
    In (predicted_class r) CLASS_NAMES /\
    1 # 2 <= confidence r <= 1.
Proof.
  intros Hp [H | H].
  - destruct (predict_image_sigmoid model_predict m x w p rest H) as [w' E].
    exists (result_of (1 - p) p), w'. split; [exact E | apply result_of_bounds, Hp].
  - destruct (predict_image_softmax model_predict m x w (1 - p) p [] rest H)
      as [w' E].
    exists (result_of (1 - p) p), w'. split; [exact E | apply result_of_bounds, Hp].
Qed.

Lemma predict_image_confidence_bounds_witness :
  (0 <= 1 # 5 <= 1) /\
  ((fun (_ : unit) (_ : Tensor) => Some [[4 # 5; 1 # 5]]) tt [] = Some [[1 # 5]] \/
   (fun (_ : unit) (_ : Tensor) => Some [[4 # 5; 1 # 5]]) tt [] = Some [[1 - (1 # 5); 1 # 5]]) /\
  exists r w',
    predict_image (fun (_ : unit) (_ : Tensor) => Some [[4 # 5; 1 # 5]]) (Some tt) []
      (fresh_world true) = (Ret (Some r), w') /\
    In (predicted_class r) CLASS_NAMES /\ 1 # 2 <= confidence r <= 1.
Proof.
  assert (Hp : 0 <= 1 # 5 <= 1) by (split; vm_compute; discriminate).
  assert (Hm : (fun (_ : unit) (_ : Tensor) => Some [[4 # 5; 1 # 5]]) tt [] = Some [[1 # 5]] \/
   (fun (_ : unit) (_ : Tensor) => Some [[4 # 5; 1 # 5]]) tt [] = Some [[1 - (1 # 5); 1 # 5]]).
  { right. reflexivity. }
  split; [exact Hp|]. split; [exact Hm|].
  apply (predict_image_confidence_bounds
           (fun (_ : unit) (_ : Tensor) => Some [[4 # 5; 1 # 5]]) tt []
           (fresh_world true) (1 # 5) [] Hp Hm).
Defined.

(** ** The image pipeline *)

Lemma omap_map_some {A A' B : Type} (f : A' -> option B) (h : A -> A') (g : A -> B)
    (l : list A) :
  (forall x, f (h x) = Some (g x)) -> omap f (map h l) = Some (map g l).
Proof.
  intro H. induction l as [|x l IH]; cbn; [reflexivity|].
  rewrite H, IH. reflexivity.
Qed.

Lemma caffe_pixel_rgb (px : RGB) : caffe_pixel (rgb_to_list px) = Some (vgg16_bgr px).
Proof. destruct px as [[r g] b]. reflexivity. Qed.

Lemma preprocess_input_rgb (rows : list (list RGB)) :
  preprocess_input (np_expand_dims0 (map (map rgb_to_list) rows))
  = Some [map (map vgg16_bgr) rows].
Proof.
  unfold preprocess_input, np_expand_dims0. cbn.
  rewrite (omap_map_some (omap caffe_pixel) (map rgb_to_list) (map vgg16_bgr)).
  - reflexivity.
  - intro row. apply omap_map_some. intro px. apply caffe_pixel_rgb.
Qed.

Section Pipeline.
Context {Model : Type}.
Variable open_image : UploadedFile -> option Image.
Variable convert_px : PilMode -> list Z -> RGB.
Variable resample_rgb : list (list RGB) -> nat * nat -> nat * nat -> RGB.
Variable resample_bands : list (list (list Z)) -> nat * nat -> nat * nat -> list Z.

(** After the [mode != 'RGB'] test the image holds RGB triples. *)
Lemma to_rgb_is_rgb (im : Image) :
  exists rows,
    img_data (if negb (String.eqb (image_mode im) "RGB")
              then convert_rgb convert_px im else im) = RGBPixels rows.
Proof.
  unfold image_mode, convert_rgb.
  destruct (img_data im) as [rows | m rows] eqn:E.
  - cbn. rewrite E. eauto.
  - destruct m; cbn; eauto.
Qed.

Lemma np_array_resize_rgb (im : Image) (rows : list (list RGB)) (sz : nat * nat) :
  img_data im = RGBPixels rows ->
  np_array (resize resample_rgb resample_bands im sz)
  = map (map rgb_to_list) (grid (fst sz) (snd sz) (fun y x => resample_rgb rows sz (x, y))).
Proof.
  intro H. destruct sz as [w h]. unfold resize, np_array. cbn. rewrite H. reflexivity.
Qed.

Lemma preprocess_image_some (f : UploadedFile) (im : Image) (w : World Model) :
  open_image f = Some im ->
  exists orig rows,
    img_data orig = RGBPixels rows /\
    fst (preprocess_image (Model := Model) open_image convert_px resample_rgb
           resample_bands f w)
    = Ret (Some ([map (map vgg16_bgr)
                    (grid 224 224 (fun y x => resample_rgb rows IMAGE_SIZE (x, y)))],
                 orig)).
Proof.
  intro H.
  destruct (to_rgb_is_rgb im) as [rows Hrows].
  exists (if negb (String.eqb (image_mode im) "RGB") then convert_rgb convert_px im else im),
         rows.
  split; [exact Hrows|].
  unfold preprocess_image, image_open, try_except, bind, emit, ret, raise.
  rewrite H.
  cbn -[resize np_array IMAGE_SIZE preprocess_input np_expand_dims0 image_mode convert_rgb grid].
  rewrite (np_array_resize_rgb _ rows IMAGE_SIZE Hrows), preprocess_input_rgb.
  reflexivity.
Qed.

End Pipeline.

Lemma grid_shape {A : Type} (w h : nat) (g : nat -> nat -> A) (f : A -> list Q) (c : nat) :
  (forall a, List.length (f a) = c) ->
  has_shape4 1 h w c [map (map f) (grid w h g)] = true.
Proof.
  intro Hf. unfold has_shape4, grid. cbn.
  rewrite !length_map, length_seq, Nat.eqb_refl. cbn. rewrite andb_true_r.
  apply forallb_forall. intros row Hrow.
  apply in_map_iff in Hrow as [r [<- Hr]].
  apply in_map_iff in Hr as [y [<- _]].
  rewrite !length_map, length_seq, Nat.eqb_refl. cbn.
  apply forallb_forall. intros px Hpx.
  apply in_map_iff in Hpx as [a [<- _]]. rewrite Hf. apply Nat.eqb_refl.
Qed.

(** ** Claims on the image pipeline *)

(** C2. An upload whose extension (the last ['.']-separated part of its
    name, lower-cased) is not one of jpg, jpeg, png, bmp, or whose size
    exceeds 10 MiB, is rejected by [render_image_display]: it returns
    [None], only appends messages to the log, at least one of them an
    error, and never reaches [Image.open]; with an allowed extension the
    error is the size error. *)
Theorem render_image_display_rejects {Model : Type}
    (open_image : UploadedFile -> option Image) (convert_px : PilMode -> list Z -> RGB)
    (resample_rgb : list (list RGB) -> nat * nat -> nat * nat -> RGB)
    (resample_bands : list (list (list Z)) -> nat * nat -> nat * nat -> list Z)
    (f : UploadedFile) (settings : Settings) (w : World Model) :
  existsb (String.eqb (file_extension (name f))) ALLOWED_EXTENSIONS = false \/
  (MAX_UPLOAD_BYTES < size f)%Z ->
  exists msgs,
    render_image_display open_image convert_px resample_rgb resample_bands f settings w
    = (Ret None, {| session := session w; cache := cache w; disk := disk w;
                    log := log w ++ msgs |}) /\
    ~ In ev_image_open msgs /\
    (exists m, In (ev_error m) msgs) /\
    (existsb (String.eqb (file_extension (name f))) ALLOWED_EXTENSIONS = true ->
     In (ev_error msg_too_large) msgs).
Proof.
  intro H. unfold render_image_display, validate_image, bind, emit, ret.
  destruct (existsb (String.eqb (file_extension (name f))) ALLOWED_EXTENSIONS) eqn:Ext.
  - destruct H as [H | H]; [discriminate|].
    assert (Hlt : (MAX_UPLOAD_BYTES <? size f)%Z = true) by (apply Z.ltb_lt; exact H).
    cbn -[MAX_UPLOAD_BYTES]. rewrite Hlt. cbn.
    exists [ev_error msg_too_large;
            ev_error "Invalid image file. Please upload a valid JPG, PNG, or BMP image."].
    split; [rewrite <- app_assoc; reflexivity|].
    split; [cbn; intros [E | [E | []]]; discriminate|].
    split; [eexists; left; reflexivity|].
    intros _. left; reflexivity.
  - cbn.
    exists [ev_error msg_bad_format;
            ev_error "Invalid image file. Please upload a valid JPG, PNG, or BMP image."].
    split; [rewrite <- app_assoc; reflexivity|].
    split; [cbn; intros [E | [E | []]]; discriminate|].
    split; [eexists; left; reflexivity|].
    intros E; discriminate.
Qed.

Lemma render_image_display_rejects_witness :
  (existsb (String.eqb (file_extension (name (example_upload "big_cat.png" 11010048))))
     ALLOWED_EXTENSIONS = false \/
   (MAX_UPLOAD_BYTES < size (example_upload "big_cat.png" 11010048))%Z) /\
  exists msgs,
    render_image_display example_open example_convert example_resample example_resample_bands
      (example_upload "big_cat.png" 11010048)
      {| confidence_threshold := 4 # 5; show_probabilities := true;
         show_image_info := false; show_processing_steps := true; theme := "Dark" |}
      (fresh_world (Model := unit) true)
    = (Ret None, {| session := session (fresh_world (Model := unit) true);
                    cache := cache (fresh_world (Model := unit) true);
                    disk := disk (fresh_world (Model := unit) true);
                    log := log (fresh_world (Model := unit) true) ++ msgs |}) /\
    ~ In ev_image_open msgs /\
    (exists m, In (ev_error m) msgs) /\
    (existsb (String.eqb (file_extension (name (example_upload "big_cat.png" 11010048))))
       ALLOWED_EXTENSIONS = true ->
     In (ev_error msg_too_large) msgs).
Proof.
  assert (H : existsb (String.eqb (file_extension (name (example_upload "big_cat.png" 11010048))))
     ALLOWED_EXTENSIONS = false \/
   (MAX_UPLOAD_BYTES < size (example_upload "big_cat.png" 11010048))%Z).
  { right. vm_compute. reflexivity. }
  split; [exact H|].
  apply (render_image_display_rejects example_open example_convert example_resample
           example_resample_bands (example_upload "big_cat.png" 11010048)
           {| confidence_threshold := 4 # 5; show_probabilities := true;
              show_image_info := false; show_processing_steps := true; theme := "Dark" |}
           (fresh_world (Model := unit) true) H).
Defined.

(** C3. Whenever the upload decodes (whatever its mode and dimensions),
    [preprocess_image] returns a tensor of shape (1, 224, 224, 3). *)
Theorem preprocess_image_shape {Model : Type}
    (open_image : UploadedFile -> option Image) (convert_px : PilMode -> list Z -> RGB)
    (resample_rgb : list (list RGB) -> nat * nat -> nat * nat -> RGB)
    (resample_bands : list (list (list Z)) -> nat * nat -> nat * nat -> list Z)
    (f : UploadedFile) (im : Image) (w : World Model) :
  open_image f = Some im ->
  exists t orig,
    fst (preprocess_image open_image convert_px resample_rgb resample_bands f w)
    = Ret (Some (t, orig)) /\
    has_shape4 1 224 224 3 t = true.
Proof.
  intro H.
  destruct (preprocess_image_some open_image convert_px resample_rgb resample_bands f im w H)
    as [orig [rows [_ E]]].
  eexists _, orig. split; [exact E|].
  apply grid_shape. intros [[r g] b]. reflexivity.
Qed.

Lemma preprocess_image_shape_witness :
  example_open (example_upload "dog.png" 45000) = Some example_png_500x300 /\
  exists t orig,
    fst (preprocess_image example_open example_convert example_resample example_resample_bands
           (example_upload "dog.png" 45000) (fresh_world (Model := unit) true))
    = Ret (Some (t, orig)) /\
    has_shape4 1 224 224 3 t = true.
Proof.
  split; [reflexivity|].
  apply (preprocess_image_shape example_open example_convert example_resample
           example_resample_bands (example_upload "dog.png" 45000) example_png_500x300
           (fresh_world (Model := unit) true)).
  reflexivity.
Defined.

(** C9. The tensor [preprocess_image] produces is the resized RGB image with
    every pixel [(r, g, b)] turned into [(b - 103.939, g - 116.779,
    r - 123.68)]: channels reordered to BGR and the VGG16 ImageNet means
    subtracted, with exactly these constants. *)
Theorem preprocess_image_vgg16_convention {Model : Type}
    (open_image : UploadedFile -> option Image) (convert_px : PilMode -> list Z -> RGB)
    (resample_rgb : list (list RGB) -> nat * nat -> nat * nat -> RGB)
    (resample_bands : list (list (list Z)) -> nat * nat -> nat * nat -> list Z)
    (f : UploadedFile) (im : Image) (w : World Model) :
  open_image f = Some im ->
  exists t orig,
    fst (preprocess_image open_image convert_px resample_rgb resample_bands f w)
    = Ret (Some (t, orig)) /\
    image_mode orig = "RGB" /\
    t = [map (map vgg16_bgr)
             (rgb_rows (resize resample_rgb resample_bands orig IMAGE_SIZE))].
Proof.
  intro H.
  destruct (preprocess_image_some open_image convert_px resample_rgb resample_bands f im w H)
    as [orig [rows [Hrows E]]].
  eexists _, orig. split; [exact E|].
  unfold image_mode, rgb_rows, resize. rewrite Hrows.
  split; reflexivity.
Qed.

Lemma preprocess_image_vgg16_convention_witness :
  example_open (example_upload "dog.png" 45000) = Some example_png_500x300 /\
  exists t orig,
    fst (preprocess_image example_open example_convert example_resample example_resample_bands
           (example_upload "dog.png" 45000) (fresh_world (Model := unit) true))
    = Ret (Some (t, orig)) /\
    image_mode orig = "RGB" /\
    t = [map (map vgg16_bgr)
             (rgb_rows (resize example_resample example_resample_bands orig IMAGE_SIZE))].
Proof.
  split; [reflexivity|].
  apply (preprocess_image_vgg16_convention example_open example_convert example_resample
           example_resample_bands (example_upload "dog.png" 45000) example_png_500x300
           (fresh_world (Model := unit) true)).
  reflexivity.
Defined.

(** ** Model loading *)

Ltac split_matches :=
  repeat match goal with
         | |- context [match ?x with _ => _ end] => destruct x eqn:?
         end.

Lemma load_model_returns {Model : Type} (gd : option bool) (ka : option Model)
    (w : World Model) :
  exists v w', load_model gd ka w = (Ret v, w').
Proof.
  destruct w as [s c d l].
  unfold load_model, try_except, bind, emit, ret, raise, get_disk, put_disk.
  cbn. destruct d, gd as [[|]|], ka; cbn; eauto.
Qed.

Section Blocked.
Context {Model : Type}.
Variable gd : option bool.
Variable ka : option Model.
Variable mp : Model -> Tensor -> option (list (list Q)).
Variable oi : UploadedFile -> option Image.
Variable cp : PilMode -> list Z -> RGB.
Variable rr : list (list RGB) -> nat * nat -> nat * nat -> RGB.
Variable rb : list (list (list Z)) -> nat * nat -> nat * nat -> list Z.

Lemma run_script_halts_after_load_failure (i : UserInput) (w : World Model) :
  load_failed_state gd ka w ->
  exists w', run_script gd ka mp oi cp rr rb i w = (Halt, w') /\
             load_failed_state gd ka w'.
Proof.
  destruct w as [[sm sl spm sc sd] c d l].
  unfold load_failed_state; cbn.
  intros (Hc & Hm & Hk & Hl).
  unfold run_script, main.
  destruct Hc as [-> | ->]; destruct Hm as [-> | ->];
    destruct sl as [[|]|]; destruct Hk as [-> | [-> Hg]];
    try destruct d; destruct gd as [[|]|];
    cbn -[render_image_display predict_image].
  all: try (exfalso; apply Hg; reflexivity).
  all: eexists; split; [reflexivity|]; cbn.
  all: rewrite ?in_app_iff; cbn.
  all: intuition discriminate.
Qed.

Lemma step_keeps_load_failed (w : World Model) (a : Action) :
  load_failed_state gd ka w -> load_failed_state gd ka (step gd ka mp oi cp rr rb w a).
Proof.
  intro H. destruct a as [i|]; cbn.
  - destruct (run_script_halts_after_load_failure i w H) as [w' [E Hw']].
    rewrite E. exact Hw'.
  - destruct H as (Hc & _ & Hk & Hl). unfold load_failed_state; cbn. tauto.
Qed.

Lemma run_all_keeps_load_failed (acts : list Action) (w : World Model) :
  load_failed_state gd ka w -> load_failed_state gd ka (run_all gd ka mp oi cp rr rb acts w).
Proof.
  unfold run_all. revert w. induction acts as [|a acts IH]; intros w H; cbn.
  - exact H.
  - apply IH, step_keeps_load_failed, H.
Qed.

End Blocked.

(** ** Claims on model loading *)

(** C5. [load_model] never raises; when the model file is missing and the
    download fails, or the artifact cannot be loaded, it returns [None]; and
    from then on, over any sequence of reruns and new browser sessions of
    the same process, every script run halts and no forward pass
    ([model.predict]) ever happens. *)
Theorem load_failure_blocks_classification {Model : Type}
    (gd : option bool) (ka : option Model) (mp : Model -> Tensor -> option (list (list Q)))
    (oi : UploadedFile -> option Image) (cp : PilMode -> list Z -> RGB)
    (rr : list (list RGB) -> nat * nat -> nat * nat -> RGB)
    (rb : list (list (list Z)) -> nat * nat -> nat * nat -> list Z) (on_disk : bool) :
  ka = None \/ (on_disk = false /\ gd <> Some true) ->
  (forall w : World Model, exists v w', load_model gd ka w = (Ret v, w')) /\
  (exists w', load_model gd ka (fresh_world on_disk) = (Ret None, w')) /\
  (forall acts : list Action,
     ~ In ev_model_predict (log (run_all gd ka mp oi cp rr rb acts (fresh_world on_disk))) /\
     forall i : UserInput,
       fst (run_script gd ka mp oi cp rr rb i
              (run_all gd ka mp oi cp rr rb acts (fresh_world on_disk))) = Halt).
Proof.
  intro H.
  split; [apply load_model_returns|].
  split.
  - destruct H as [-> | [-> Hg]];
      [destruct on_disk|]; destruct gd as [[|]|];
      try (exfalso; apply Hg; reflexivity);
      cbn; eexists; reflexivity.
  - intro acts.
    assert (H0 : load_failed_state gd ka (fresh_world (Model := Model) on_disk)).
    { unfold load_failed_state; cbn. tauto. }
    pose proof (run_all_keeps_load_failed gd ka mp oi cp rr rb acts _ H0) as Hw.
    split; [apply Hw|].
    intro i.
    destruct (run_script_halts_after_load_failure gd ka mp oi cp rr rb i _ Hw)
      as [w' [E _]].
    rewrite E. reflexivity.
Qed.

Lemma load_failure_blocks_classification_witness :
  (None = @None unit \/ (false = false /\ @None bool <> Some true)) /\
  (forall w : World unit, exists v w', load_model None None w = (Ret v, w')) /\
  (exists w', load_model None (@None unit) (fresh_world false) = (Ret None, w')) /\
  (forall acts : list Action,
     ~ In ev_model_predict
         (log (run_all None None (fun (_ : unit) (_ : Tensor) => Some [[1 # 2]]) example_open example_convert
                 example_resample example_resample_bands acts (fresh_world false))) /\
     forall i : UserInput,
       fst (run_script None None (fun (_ : unit) (_ : Tensor) => Some [[1 # 2]]) example_open example_convert
              example_resample example_resample_bands i
              (run_all None None (fun (_ : unit) (_ : Tensor) => Some [[1 # 2]]) example_open example_convert
                 example_resample example_resample_bands acts (fresh_world false))) = Halt).
Proof.
  assert (H : None = @None unit \/ (false = false /\ @None bool <> Some true))
    by (left; reflexivity).
  split; [exact H|].
  apply (load_failure_blocks_classification None None (fun (_ : unit) (_ : Tensor) => Some [[1 # 2]])
           example_open example_convert example_resample example_resample_bands false H).
Defined.

(** ** Claims on the prediction flow of [main] *)

(** C4 (code bug). When the forward pass raises, [predict_image] reports
    "Error making prediction" and returns [None], but [main] then evaluates
    [results['confidence']] on [None]: it raises [TypeError] instead of
    showing "Failed to make prediction", and only the script-level handler
    turns it into "Application Error". The same misplaced [else] shows
    "Failed to make prediction" for a successful prediction below the
    confidence threshold. *)
Theorem main_prediction_failure_raises :
  let mp_fail := fun (_ : unit) (_ : Tensor) => @None (list (list Q)) in
  let r := main None None mp_fail example_open example_convert example_resample
             example_resample_bands (example_click (example_upload "cat.png" 45000) (4 # 5))
             example_loaded_world in
  let r' := run_script None None mp_fail example_open example_convert example_resample
              example_resample_bands (example_click (example_upload "cat.png" 45000) (4 # 5))
              example_loaded_world in
  let r_low := main None None (fun (_ : unit) (_ : Tensor) => Some [[3 # 5]]) example_open
                 example_convert example_resample example_resample_bands
                 (example_click (example_upload "cat.png" 45000) (4 # 5))
                 example_loaded_world in
  fst r = Raise TypeError /\
  In (ev_error "Error making prediction") (log (snd r)) /\
  ~ In (ev_error msg_prediction_failed) (log (snd r)) /\
  fst r' = Ret tt /\
  In (ev_error msg_application_error) (log (snd r')) /\
  fst r_low = Ret tt /\
  In (ev_result_card "Dog" (3 # 5) false) (log (snd r_low)) /\
  In (ev_error msg_prediction_failed) (log (snd r_low)).
Proof.
  vm_compute.
  split; [reflexivity|].
  split; [tauto|].
  split; [intro H; repeat destruct H as [H | H]; try discriminate; exact H|].
  split; [reflexivity|].
  split; [tauto|].
  split; [reflexivity|].
  split; tauto.
Qed.

Lemma computed_view_app (l1 l2 : list Event) :
  computed_view (l1 ++ l2) = (computed_view l1 ++ computed_view l2)%list.
Proof. unfold computed_view. apply flat_map_app. Qed.

Lemma same_computation_refl {Model A : Type} (r : Outcome A * World Model) :
  same_computation r r.
Proof. unfold same_computation. tauto. Qed.

Lemma bind_same {Model A B : Type} (m1 m2 : M Model A) (k1 k2 : A -> M Model B)
    (w : World Model) :
  m1 w = m2 w ->
  (forall a w', m1 w = (Ret a, w') -> same_computation (k1 a w') (k2 a w')) ->
  same_computation (bind m1 k1 w) (bind m2 k2 w).
Proof.
  intros E H. unfold bind. rewrite <- E.
  destruct (m1 w) as [[a | e |] w'] eqn:Em.
  - apply H. reflexivity.
  - apply same_computation_refl.
  - apply same_computation_refl.
Qed.

Lemma bind_render_sidebar {Model : Type} (w : World Model) :
  exists w', forall (B : Type) (s : Settings) (k : Settings -> M Model B),
    bind (render_sidebar s) k w = k s w'.
Proof.
  eexists. intros B s k.
  unfold render_sidebar, bind, get_session, put_session, ret. reflexivity.
Qed.

(** The end of a prediction: the result card, then the balloons or the
    error message chosen by the threshold. *)
Lemma prediction_tail_threshold {Model : Type} (r : PredictionResult) (s1 s2 : Settings)
    (w : World Model) :
  show_probabilities s1 = show_probabilities s2 ->
  same_computation
    (bind (render_prediction_results (Some r) s1)
       (fun _ => if Qle_bool (confidence_threshold s1) (confidence r)
                 then emit ev_balloons else emit (ev_error msg_prediction_failed)) w)
    (bind (render_prediction_results (Some r) s2)
       (fun _ => if Qle_bool (confidence_threshold s2) (confidence r)
                 then emit ev_balloons else emit (ev_error msg_prediction_failed)) w).
Proof.
  intro Hs. destruct w as [[sm sl spm sc sd] c d l].
  unfold render_prediction_results, bind, ret, emit, get_session, put_session, read_key,
    raise, same_computation.
  rewrite <- Hs.
  destruct spm; cbn; [|tauto].
  destruct (predicted_class r =? "Cat"); [destruct sc | destruct sd]; cbn; try tauto.
  all: destruct (Qle_bool (confidence_threshold s1) (confidence r));
       destruct (Qle_bool (confidence_threshold s2) (confidence r));
       destruct (show_probabilities s1); cbn.
  all: repeat split; rewrite ?computed_view_app; reflexivity.
Qed.

Section Threshold.
Context {Model : Type}.
Variable gd : option bool.
Variable ka : option Model.
Variable mp : Model -> Tensor -> option (list (list Q)).
Variable oi : UploadedFile -> option Image.
Variable cp : PilMode -> list Z -> RGB.
Variable rr : list (list RGB) -> nat * nat -> nat * nat -> RGB.
Variable rb : list (list (list Z)) -> nat * nat -> nat * nat -> list Z.

Ltac same_step := apply bind_same; [reflexivity | intros ? ? ?; cbv beta].
Ltac sidebar_step :=
  match goal with
  | |- same_computation (bind (render_sidebar _) _ ?w) _ =>
      let ws := fresh "ws" in let Hws := fresh "Hws" in
      destruct (bind_render_sidebar w) as [ws Hws]; rewrite !Hws; cbv beta
  end.

Lemma main_threshold_irrelevant (i : UserInput) (t1 t2 : Q) (w : World Model) :
  same_computation (main gd ka mp oi cp rr rb (with_threshold i t1) w)
                   (main gd ka mp oi cp rr rb (with_threshold i t2) w).
Proof.
  unfold main.
  repeat first [same_step | sidebar_step].
  cbn [with_threshold upload widgets predict_clicked].
  destruct (upload i) as [f|]; [|apply same_computation_refl].
  repeat same_step.
  match goal with
  | |- same_computation (match ?r with _ => _ end _) _ =>
      destruct r as [[processed_image original_image]|]; [|apply same_computation_refl]
  end.
  destruct (predict_clicked i); [|apply same_computation_refl].
  repeat same_step.
  match goal with
  | |- same_computation (bind (match ?r with _ => _ end) _ _) _ => destruct r as [r|]
  end; cbv beta iota.
  - apply prediction_tail_threshold. reflexivity.
  - apply same_computation_refl.
Qed.

End Threshold.

(** ** The session counters *)

Lemma card_labels_app (l1 l2 : list Event) :
  card_labels (l1 ++ l2) = (card_labels l1 ++ card_labels l2)%list.
Proof. unfold card_labels. apply flat_map_app. Qed.

Lemma counted_refl {Model : Type} (w : World Model) :
  counters_inv (session w) -> counted w w.
Proof. intro H. split; [exact H|]. exists []. rewrite app_nil_r. split; reflexivity. Qed.

Lemma counted_trans {Model : Type} (w1 w2 w3 : World Model) :
  counted w1 w2 -> counted w2 w3 -> counted w1 w3.
Proof.
  intros [_ [n1 [L1 C1]]] [I3 [n2 [L2 C2]]].
  split; [exact I3|]. exists (n1 ++ n2)%list. split.
  - rewrite L2, L1. symmetry. apply app_assoc.
  - rewrite C2, C1, card_labels_app, fold_left_app. reflexivity.
Qed.

Lemma counted_inv {Model : Type} (w w' : World Model) :
  counted w w' -> counters_inv (session w').
Proof. intros [H _]. exact H. Qed.

Lemma keeps_ret {Model A : Type} (a : A) : keeps_counters (Model := Model) (ret a).
Proof. intros w H. apply counted_refl, H. Qed.

Lemma keeps_raise {Model A : Type} (e : Exn) : keeps_counters (Model := Model) (A := A) (raise e).
Proof. intros w H. apply counted_refl, H. Qed.

Lemma keeps_halt {Model A : Type} : keeps_counters (Model := Model) (A := A) halt.
Proof. intros w H. apply counted_refl, H. Qed.

Lemma keeps_emit {Model : Type} (e : Event) :
  card_label e = [] -> keeps_counters (Model := Model) (emit e).
Proof.
  intros He w H. split; [exact H|]. exists [e]. split; [reflexivity|].
  unfold card_labels. cbn. rewrite He. reflexivity.
Qed.

Lemma keeps_read_key {Model A : Type} (v : option A) :
  keeps_counters (Model := Model) (read_key v).
Proof. destruct v; [apply keeps_ret | apply keeps_raise]. Qed.

Lemma keeps_getitem {Model A : Type} (xs : list A) (n : nat) :
  keeps_counters (Model := Model) (getitem xs n).
Proof. unfold getitem. destruct (nth_error xs n); [apply keeps_ret | apply keeps_raise]. Qed.

Lemma keeps_get_cache {Model : Type} : keeps_counters (Model := Model) get_cache.
Proof. intros w H. apply counted_refl, H. Qed.

Lemma keeps_get_disk {Model : Type} : keeps_counters (Model := Model) get_disk.
Proof. intros w H. apply counted_refl, H. Qed.

Lemma keeps_put_cache {Model : Type} (c : option (option Model)) :
  keeps_counters (put_cache c).
Proof.
  intros w H. split; [exact H|]. exists []. rewrite app_nil_r. split; reflexivity.
Qed.

Lemma keeps_put_disk {Model : Type} (d : bool) : keeps_counters (Model := Model) (put_disk d).
Proof.
  intros w H. split; [exact H|]. exists []. rewrite app_nil_r. split; reflexivity.
Qed.

Lemma keeps_bind {Model A B : Type} (m : M Model A) (k : A -> M Model B) :
  keeps_counters m -> (forall a, keeps_counters (k a)) -> keeps_counters (bind m k).
Proof.
  intros Hm Hk w H. specialize (Hm w H). unfold bind.
  destruct (m w) as [[a | e |] w1]; cbn in *; [| exact Hm | exact Hm].
  apply (counted_trans _ w1); [exact Hm|]. apply Hk, (counted_inv w), Hm.
Qed.

Lemma keeps_try_except {Model A : Type} (m : M Model A) (h : Exn -> M Model A) :
  keeps_counters m -> (forall e, keeps_counters (h e)) -> keeps_counters (try_except m h).
Proof.
  intros Hm Hh w H. specialize (Hm w H). unfold try_except.
  destruct (m w) as [[a | e |] w1]; cbn in *; [exact Hm | | exact Hm].
  apply (counted_trans _ w1); [exact Hm|]. apply Hh, (counted_inv w), Hm.
Qed.

Lemma keeps_get_session {Model A : Type} (k : Session Model -> M Model A) :
  (forall s, keeps_counters_at s (k s)) -> keeps_counters (bind get_session k).
Proof. intros Hk w H. apply (Hk (session w) H w eq_refl). Qed.

Lemma keeps_at_weaken {Model A : Type} (s : Session Model) (m : M Model A) :
  keeps_counters m -> keeps_counters_at s m.
Proof. intros Hm Hs w E. subst s. apply Hm, Hs. Qed.

Lemma keeps_at_bind {Model A B : Type} (s : Session Model) (m : M Model A)
    (k : A -> M Model B) :
  keeps_counters_at s m -> (forall a, keeps_counters (k a)) ->
  keeps_counters_at s (bind m k).
Proof.
  intros Hm Hk Hs w E. specialize (Hm Hs w E). unfold bind.
  destruct (m w) as [[a | e |] w1]; cbn in *; [| exact Hm | exact Hm].
  apply (counted_trans _ w1); [exact Hm|]. apply Hk, (counted_inv w), Hm.
Qed.

(** Writing back the session just read with other keys changed. *)
Lemma keeps_at_put {Model : Type} (s s' : Session Model) :
  ss_predictions_made s' = ss_predictions_made s ->
  ss_cats_detected s' = ss_cats_detected s ->
  ss_dogs_detected s' = ss_dogs_detected s ->
  keeps_counters_at s (put_session s').
Proof.
  intros Hp Hc Hd Hs w E. subst s. unfold counted, counters_inv, counts in *; cbn.
  rewrite Hp, Hc, Hd. split; [exact Hs|].
  exists []. rewrite app_nil_r. split; reflexivity.
Qed.

Ltac keeps_step :=
  match goal with
  | |- keeps_counters (bind get_session _) => apply keeps_get_session; intro
  | |- keeps_counters (bind _ _) => apply keeps_bind; [|intro]
  | |- keeps_counters (try_except _ _) => apply keeps_try_except; [|intro]
  | |- keeps_counters (ret _) => apply keeps_ret
  | |- keeps_counters (raise _) => apply keeps_raise
  | |- keeps_counters halt => apply keeps_halt
  | |- keeps_counters (emit _) => apply keeps_emit; reflexivity
  | |- keeps_counters (read_key _) => apply keeps_read_key
  | |- keeps_counters (getitem _ _) => apply keeps_getitem
  | |- keeps_counters get_cache => apply keeps_get_cache
  | |- keeps_counters get_disk => apply keeps_get_disk
  | |- keeps_counters (put_cache _) => apply keeps_put_cache
  | |- keeps_counters (put_disk _) => apply keeps_put_disk
  | |- keeps_counters (match ?x with _ => _ end) => destruct x
  | |- keeps_counters_at _ (bind _ _) => apply keeps_at_bind; [|intro]
  | |- keeps_counters_at _ (put_session _) => apply keeps_at_put; reflexivity
  | |- keeps_counters_at _ (match ?x with _ => _ end) => destruct x
  | |- keeps_counters_at _ _ => apply keeps_at_weaken
  end; cbv beta zeta.

Ltac keeps_tac := repeat keeps_step.

Lemma keeps_load_model_cached {Model : Type} (gd : option bool) (ka : option Model) :
  keeps_counters (load_model_cached gd ka).
Proof. unfold load_model_cached, load_model. keeps_tac. Qed.

Lemma keeps_predict_image {Model : Type} (mp : Model -> Tensor -> option (list (list Q)))
    (m : option Model) (x : Tensor) :
  keeps_counters (predict_image mp m x).
Proof. unfold predict_image, call_predict. keeps_tac. Qed.

Lemma keeps_render_image_display {Model : Type} (oi : UploadedFile -> option Image)
    (cp : PilMode -> list Z -> RGB)
    (rr : list (list RGB) -> nat * nat -> nat * nat -> RGB)
    (rb : list (list (list Z)) -> nat * nat -> nat * nat -> list Z)
    (f : UploadedFile) (s : Settings) :
  keeps_counters (Model := Model) (render_image_display oi cp rr rb f s).
Proof.
  unfold render_image_display, validate_image, preprocess_image, image_open. keeps_tac.
Qed.

Lemma keeps_render_sidebar {Model : Type} (s : Settings) :
  keeps_counters (Model := Model) (render_sidebar s).
Proof.
  intros [[sm sl spm sc sd] c d l] H. unfold counters_inv in H; cbn in H.
  unfold render_sidebar, bind, get_session, put_session, ret, counted, counts,
    counters_inv; cbn.
  split.
  - destruct spm, sc, sd; cbn; tauto.
  - exists []. rewrite app_nil_r. split; reflexivity.
Qed.

Lemma keeps_render_prediction_results {Model : Type} (res : option PredictionResult)
    (s : Settings) :
  keeps_counters (Model := Model) (render_prediction_results res s).
Proof.
  destruct res as [r|]; [|apply keeps_emit; reflexivity].
  intros [[sm sl spm sc sd] c d l] H. unfold counters_inv in H; cbn in H.
  unfold render_prediction_results, bind, get_session, put_session, ret, emit,
    read_key, raise.
  destruct spm as [pm|], sc as [cats|], sd as [dogs|]; try contradiction; cbn.
  2: { apply (counted_refl {| session := {| ss_model := sm |} |}). exact I. }
  destruct (predicted_class r =? "Cat") eqn:E;
    destruct (Qle_bool (confidence_threshold s) (confidence r));
    destruct (show_probabilities s); cbn.
  all: unfold counted, counters_inv, counts; cbn; split; [lia|].
  all: eexists; split; [rewrite <- !app_assoc; reflexivity|].
  all: cbn; rewrite E; reflexivity.
Qed.

Lemma keeps_main {Model : Type} (gd : option bool) (ka : option Model)
    (mp : Model -> Tensor -> option (list (list Q)))
    (oi : UploadedFile -> option Image) (cp : PilMode -> list Z -> RGB)
    (rr : list (list RGB) -> nat * nat -> nat * nat -> RGB)
    (rb : list (list (list Z)) -> nat * nat -> nat * nat -> list Z)
    (i : UserInput) :
  keeps_counters (main gd ka mp oi cp rr rb i).
Proof.
  unfold main.
  repeat first
    [ apply keeps_load_model_cached | apply keeps_predict_image
    | apply keeps_render_image_display | apply keeps_render_sidebar
    | apply keeps_render_prediction_results | keeps_step ].
Qed.

Lemma keeps_run_script {Model : Type} (gd : option bool) (ka : option Model)
    (mp : Model -> Tensor -> option (list (list Q)))
    (oi : UploadedFile -> option Image) (cp : PilMode -> list Z -> RGB)
    (rr : list (list RGB) -> nat * nat -> nat * nat -> RGB)
    (rb : list (list (list Z)) -> nat * nat -> nat * nat -> list Z)
    (i : UserInput) :
  keeps_counters (run_script gd ka mp oi cp rr rb i).
Proof.
  unfold run_script. apply keeps_try_except.
  - apply keeps_bind; [apply keeps_main | intro; apply keeps_ret].
  - intro. keeps_tac.
Qed.

(** A completed prediction with result [r], from a session whose counters
    exist, moves them by exactly [add_card] with the predicted label. *)
Lemma render_prediction_results_counts {Model : Type} (r : PredictionResult) (s : Settings)
    (w : World Model) :
  counters_inv (session w) -> ss_predictions_made (session w) <> None ->
  counts (session (snd (render_prediction_results (Some r) s w))) =
  add_card (counts (session w)) (predicted_class r).
Proof.
  destruct w as [[sm sl spm sc sd] c d l]. unfold counters_inv; cbn. intros H Hp.
  unfold render_prediction_results, bind, get_session, put_session, ret, emit,
    read_key, raise.
  destruct spm as [pm|], sc as [cats|], sd as [dogs|]; try contradiction;
    try (exfalso; apply Hp; reflexivity).
  cbn. unfold counts, add_card; cbn.
  destruct (predicted_class r =? "Cat");
    destruct (Qle_bool (confidence_threshold s) (confidence r));
    destruct (show_probabilities s); reflexivity.
Qed.

Lemma predict_image_session {Model : Type} (mp : Model -> Tensor -> option (list (list Q)))
    (m : option Model) (x : Tensor) (w : World Model) :
  fst (predict_image mp m x w) = fst (predict_image mp m x (fresh_world false)) /\
  session (snd (predict_image mp m x w)) = session w.
Proof.
  unfold predict_image, call_predict, try_except, bind, emit, ret, raise, getitem.
  destruct m as [m|]; [|split; reflexivity].
  destruct (mp m x) as [p|]; cbn; [|split; reflexivity].
  destruct p as [|row rest]; cbn; [split; reflexivity|].
  destruct row as [|a [|b row']]; cbn; split; reflexivity.
Qed.

(** ** Claims on the confidence threshold *)

(** C6: the confidence threshold is presentation only. Two runs of the
    script on the same state, whose inputs differ only in the value of the
    confidence-threshold slider, end with the same outcome, the same session
    state (model, counters), the same cache and disk, and the same computed
    events: the same forward passes, the same result cards (label and
    confidence) and the same probabilities shown. Only the "reliable" flag
    of the card and the balloons / message after it can differ. *)
Theorem run_script_threshold_irrelevant {Model : Type}
    (gd : option bool) (ka : option Model)
    (mp : Model -> Tensor -> option (list (list Q)))
    (oi : UploadedFile -> option Image) (cp : PilMode -> list Z -> RGB)
    (rr : list (list RGB) -> nat * nat -> nat * nat -> RGB)
    (rb : list (list (list Z)) -> nat * nat -> nat * nat -> list Z)
    (i : UserInput) (t1 t2 : Q) (w : World Model) :
  same_computation (run_script gd ka mp oi cp rr rb (with_threshold i t1) w)
                   (run_script gd ka mp oi cp rr rb (with_threshold i t2) w).
Proof.
  pose proof (main_threshold_irrelevant gd ka mp oi cp rr rb i t1 t2 w) as H.
  unfold run_script, try_except, bind, ret.
  destruct (main gd ka mp oi cp rr rb (with_threshold i t1) w) as [o1 w1].
  destruct (main gd ka mp oi cp rr rb (with_threshold i t2) w) as [o2 w2].
  unfold same_computation in *. cbn in H.
  destruct H as (Ho & Hs & Hc & Hd & Hl). subst o2.
  destruct o1; cbn; [tauto | | tauto].
  unfold emit; cbn. rewrite !computed_view_app, Hl, Hs, Hc, Hd. tauto.
Qed.

(** ** Claims on the session counters *)

(** C10: the session statistics. (1) A whole run of the script, from a
    session whose counters satisfy [predictions_made = cats_detected +
    dogs_detected] (or are not yet created), ends in a session satisfying it
    again, and the counters moved by exactly one [add_card] per result card
    shown during the run: [predictions_made] and the counter of the card's
    label each go up by one. (2) The sidebar and the result rendering each
    keep the invariant, and a completed prediction from existing counters
    increments exactly by [add_card] with its label. (3) The inference path
    ([predict_image]) neither reads nor writes the session: its result is
    the same from any state, and the session is unchanged. *)
Theorem session_counters_accounting {Model : Type} (gd : option bool) (ka : option Model)
    (mp : Model -> Tensor -> option (list (list Q)))
    (oi : UploadedFile -> option Image) (cp : PilMode -> list Z -> RGB)
    (rr : list (list RGB) -> nat * nat -> nat * nat -> RGB)
    (rb : list (list (list Z)) -> nat * nat -> nat * nat -> list Z)
    (i : UserInput) (w : World Model) :
  counters_inv (session w) ->
  counted w (snd (run_script gd ka mp oi cp rr rb i w)) /\
  (forall s : Settings, keeps_counters (Model := Model) (render_sidebar s)) /\
  (forall (res : option PredictionResult) (s : Settings),
     keeps_counters (Model := Model) (render_prediction_results res s)) /\
  (forall (r : PredictionResult) (s : Settings) (w0 : World Model),
     counters_inv (session w0) -> ss_predictions_made (session w0) <> None ->
     counts (session (snd (render_prediction_results (Some r) s w0))) =
     add_card (counts (session w0)) (predicted_class r)) /\
  (forall (m : option Model) (x : Tensor) (w1 w2 : World Model),
     fst (predict_image mp m x w1) = fst (predict_image mp m x w2) /\
     session (snd (predict_image mp m x w1)) = session w1).
Proof.
  intro H. split; [apply keeps_run_script, H|].
  split; [apply keeps_render_sidebar|].
  split; [apply keeps_render_prediction_results|].
  split; [apply render_prediction_results_counts|].
  intros m x w1 w2.
  destruct (predict_image_session mp m x w1) as [E1 S1].
  destruct (predict_image_session mp m x w2) as [E2 _].
  split; [congruence | exact S1].
Qed.

Lemma session_counters_accounting_witness :
  counters_inv (session example_loaded_world) /\
  counted example_loaded_world
    (snd (run_script (Some true) (Some tt) (fun (_ : unit) (_ : Tensor) => Some [[3 # 10]])
            example_open example_convert example_resample example_resample_bands
            (example_click (example_upload "cat.png" 45000) (4 # 5)) example_loaded_world)) /\
  (forall s : Settings, keeps_counters (Model := unit) (render_sidebar s)) /\
  (forall (res : option PredictionResult) (s : Settings),
     keeps_counters (Model := unit) (render_prediction_results res s)) /\
  (forall (r : PredictionResult) (s : Settings) (w0 : World unit),
     counters_inv (session w0) -> ss_predictions_made (session w0) <> None ->
     counts (session (snd (render_prediction_results (Some r) s w0))) =
     add_card (counts (session w0)) (predicted_class r)) /\
  (forall (m : option unit) (x : Tensor) (w1 w2 : World unit),
     fst (predict_image (fun (_ : unit) (_ : Tensor) => Some [[3 # 10]]) m x w1) =
     fst (predict_image (fun (_ : unit) (_ : Tensor) => Some [[3 # 10]]) m x w2) /\
     session (snd (predict_image (fun (_ : unit) (_ : Tensor) => Some [[3 # 10]]) m x w1)) =
     session w1).
Proof.
  assert (H : counters_inv (session example_loaded_world)) by (cbn; reflexivity).
  split; [exact H|].
  apply (session_counters_accounting (Some true) (Some tt)
           (fun (_ : unit) (_ : Tensor) => Some [[3 # 10]])
           example_open example_convert example_resample example_resample_bands
           (example_click (example_upload "cat.png" 45000) (4 # 5)) example_loaded_world H).
Defined.

(** ** Further properties of the code *)

Lemma Qle_bool_false_lt (a b : Q) : Qle_bool a b = false -> b < a.
Proof.
  intro H. apply Qnot_le_lt. intro H'. apply Qle_bool_iff in H'. congruence.
Qed.

Lemma split_dot_no_dot (s : string) :
  existsb (Ascii.eqb ".") (list_ascii_of_string s) = false -> split_dot s = [s].
Proof.
  induction s as [|c s IH]; [reflexivity|].
  cbn [existsb list_ascii_of_string split_dot]. intro H.
  apply orb_false_iff in H. destruct H as [Hc Hs].
  rewrite IH by exact Hs. rewrite Ascii.eqb_sym, Hc. reflexivity.
Qed.

Lemma split_dot_app_dot (s1 s2 : string) :
  exists h hs, split_dot (s1 ++ String "." s2) = (h :: hs ++ split_dot s2)%list.
Proof.
  induction s1 as [|c s1 IH]; cbn [String.append split_dot].
  - exists EmptyString, []. reflexivity.
  - destruct IH as [h [hs E]]. rewrite E.
    destruct (Ascii.eqb c ".").
    + exists EmptyString, (h :: hs). reflexivity.
    + exists (String c h), hs. reflexivity.
Qed.

(** X1: [validate_image] accepts a file, without showing anything, when
    its extension is allowed and its size is at most 10 MiB (the bound
    itself included). *)
Theorem validate_image_accepts {Model : Type} (f : UploadedFile) (w : World Model) :
  existsb (String.eqb (file_extension (name f))) ALLOWED_EXTENSIONS = true ->
  (size f <= MAX_UPLOAD_BYTES)%Z ->
  validate_image (Some f) w = (Ret true, w).
Proof.
  intros He Hs. unfold validate_image. cbv beta zeta. rewrite He.
  cbn -[MAX_UPLOAD_BYTES].
  replace (MAX_UPLOAD_BYTES <? size f)%Z with false by (symmetry; apply Z.ltb_ge; exact Hs).
  reflexivity.
Qed.

Lemma validate_image_accepts_witness :
  existsb (String.eqb (file_extension (name (example_upload "Cat.PNG" 10485760))))
    ALLOWED_EXTENSIONS = true /\
  (size (example_upload "Cat.PNG" 10485760) <= MAX_UPLOAD_BYTES)%Z /\
  validate_image (Some (example_upload "Cat.PNG" 10485760)) (fresh_world (Model := unit) false)
  = (Ret true, fresh_world false).
Proof.
  assert (H1 : existsb (String.eqb (file_extension (name (example_upload "Cat.PNG" 10485760))))
                 ALLOWED_EXTENSIONS = true) by reflexivity.
  assert (H2 : (size (example_upload "Cat.PNG" 10485760) <= MAX_UPLOAD_BYTES)%Z)
    by (vm_compute; discriminate).
  split; [exact H1|]. split; [exact H2|].
  apply (validate_image_accepts (example_upload "Cat.PNG" 10485760) (fresh_world false) H1 H2).
Defined.

(** X2: the extension [validate_image] checks is the part after the last
    dot, lower-cased; a name without a dot is its own extension. *)
Theorem file_extension_after_last_dot (base ext : string) :
  existsb (Ascii.eqb ".") (list_ascii_of_string ext) = false ->
  file_extension (base ++ String "." ext) = str_lower ext /\
  file_extension ext = str_lower ext.
Proof.
  intro H. unfold file_extension. split.
  - destruct (split_dot_app_dot base ext) as [h [hs E]]. rewrite E, (split_dot_no_dot ext H).
    rewrite app_comm_cons, last_last. reflexivity.
  - rewrite (split_dot_no_dot ext H). reflexivity.
Qed.

Lemma file_extension_after_last_dot_witness :
  existsb (Ascii.eqb ".") (list_ascii_of_string "JPG") = false /\
  file_extension ("my.cat" ++ String "." "JPG") = str_lower "JPG" /\
  file_extension "JPG" = str_lower "JPG".
Proof.
  assert (H : existsb (Ascii.eqb ".") (list_ascii_of_string "JPG") = false) by reflexivity.
  split; [exact H|]. apply (file_extension_after_last_dot "my.cat" "JPG" H).
Defined.

(** The result of [predict_image] with a model, as a function of the
    forward pass alone. *)
Lemma predict_image_first_row {Model : Type} (mp : Model -> Tensor -> option (list (list Q)))
    (md : Model) (x : Tensor) (w : World Model) :
  fst (predict_image mp (Some md) x w) =
  match mp md x with
  | Some ([p] :: _) => Ret (Some (result_of (1 - p) p))
  | Some ((c :: d :: _) :: _) => Ret (Some (result_of c d))
  | _ => Ret None
  end.
Proof.
  unfold predict_image, call_predict, try_except, bind, emit, ret, raise, getitem.
  destruct (mp md x) as [p|]; cbn; [|reflexivity].
  destruct p as [|row rest]; cbn; [reflexivity|].
  destruct row as [|a [|b row']]; reflexivity.
Qed.

(** X3: with a model, [predict_image] never raises: it runs exactly one
    forward pass, shows "Error making prediction" exactly when it returns
    [None], and changes nothing else (session, cache, file on disk). *)
Theorem predict_image_effects {Model : Type} (mp : Model -> Tensor -> option (list (list Q)))
    (md : Model) (x : Tensor) (w : World Model) :
  exists res,
    predict_image mp (Some md) x w =
    (Ret res, {| session := session w; cache := cache w; disk := disk w;
                 log := log w ++ ev_model_predict ::
                          match res with
                          | None => [ev_error "Error making prediction"]
                          | Some _ => []
                          end |}).
Proof.
  unfold predict_image, call_predict, try_except, bind, emit, ret, raise, getitem.
  destruct (mp md x) as [p|]; cbn;
    [|exists None; rewrite <- ?app_assoc; reflexivity].
  destruct p as [|row rest]; cbn;
    [exists None; rewrite <- ?app_assoc; reflexivity|].
  destruct row as [|a [|b row']]; cbn.
  - exists None. rewrite <- ?app_assoc. reflexivity.
  - eexists (Some _). reflexivity.
  - eexists (Some _). reflexivity.
Qed.

(** X4: only the first row of the model output and, in it, only the first
    one or two values matter: one value [p] is the dog probability
    (sigmoid), two or more values give the cat and dog probabilities
    (softmax), extra columns and rows are ignored; a failing forward pass,
    an empty output or an empty first row give [None]. *)
Theorem predict_image_uses_first_row {Model : Type}
    (mp : Model -> Tensor -> option (list (list Q)))
    (md : Model) (x : Tensor) (w : World Model) :
  fst (predict_image mp (Some md) x w) =
  match mp md x with
  | Some ([p] :: _) => Ret (Some (result_of (1 - p) p))
  | Some ((c :: d :: _) :: _) => Ret (Some (result_of c d))
  | _ => Ret None
  end.
Proof. apply predict_image_first_row. Qed.



(** X6: the confidence interpretation is monotone: a higher confidence
    never gets a lower level. *)
Theorem confidence_level_monotone (c1 c2 : Q) :
  c1 <= c2 -> (level_rank (confidence_level c1) <= level_rank (confidence_level c2))%nat.
Proof.
  intro H. unfold confidence_level.
  repeat match goal with
         | |- context [Qle_bool ?a ?b] =>
             let F := fresh "F" in
             destruct (Qle_bool a b) eqn:F;
             [apply Qle_bool_iff in F | apply Qle_bool_false_lt in F]
         end.
  all: cbn; try lia; exfalso; lra.
Qed.

Lemma confidence_level_monotone_witness :
  17 # 20 <= 19 # 20 /\
  (level_rank (confidence_level (17 # 20)) <= level_rank (confidence_level (19 # 20)))%nat.
Proof.
  assert (H : 17 # 20 <= 19 # 20) by (vm_compute; discriminate).
  split; [exact H|]. apply (confidence_level_monotone (17 # 20) (19 # 20) H).
Defined.

(** X7: when the model file is already on disk, [load_model] attempts no
    download, whatever the network would do: it loads the file once and
    returns the model, or shows "Error loading model" and returns [None]
    for a corrupt artifact. It never raises. *)
Theorem load_model_file_present {Model : Type} (gd : option bool) (ka : option Model)
    (w : World Model) :
  disk w = true ->
  load_model gd ka w =
  (Ret ka, {| session := session w; cache := cache w; disk := true;
              log := log w ++ ev_keras_load ::
                       match ka with
                       | Some _ => []
                       | None => [ev_error "Error loading model"]
                       end |}).
Proof.
  destruct w as [s c d l]. cbn. intro H. subst d.
  unfold load_model, try_except, bind, emit, ret, raise, get_disk.
  destruct ka; cbn; rewrite <- ?app_assoc; reflexivity.
Qed.

Lemma load_model_file_present_witness :
  disk (fresh_world (Model := unit) true) = true /\
  load_model None (Some tt) (fresh_world (Model := unit) true) =
  (Ret (Some tt), {| session := session (fresh_world (Model := unit) true); cache := cache (fresh_world (Model := unit) true);
                     disk := true;
                     log := log (fresh_world (Model := unit) true) ++ ev_keras_load ::
                              match Some tt with
                              | Some _ => []
                              | None => [ev_error "Error loading model"]
                              end |}).
Proof.
  assert (H : disk (fresh_world (Model := unit) true) = true) by reflexivity.
  split; [exact H|]. apply (load_model_file_present None (Some tt) (fresh_world (Model := unit) true) H).
Defined.

(** X8: when the model file is missing, [load_model] downloads it first.
    A failing download shows "Error loading model" and returns [None]
    without a load attempt. A download that returns without writing the
    file still shows "Model downloaded successfully!", then the load fails
    and [None] is returned. A download that writes the file leaves it on
    disk and the result is that of loading it. It never raises. *)
Theorem load_model_download {Model : Type} (gd : option bool) (ka : option Model)
    (w : World Model) :
  disk w = false ->
  load_model gd ka w =
  (Ret (match gd with Some true => ka | _ => None end),
   {| session := session w; cache := cache w;
      disk := match gd with Some b => b | None => false end;
      log := log w ++ ev_download ::
               match gd with
               | None => [ev_error "Error loading model"]
               | Some true =>
                   ev_success "Model downloaded successfully!" :: ev_keras_load ::
                   match ka with
                   | Some _ => []
                   | None => [ev_error "Error loading model"]
                   end
               | Some false =>
                   [ev_success "Model downloaded successfully!"; ev_keras_load;
                    ev_error "Error loading model"]
               end |}).
Proof.
  destruct w as [s c d l]. cbn. intro H. subst d.
  unfold load_model, try_except, bind, emit, ret, raise, get_disk, put_disk.
  destruct gd as [[|]|]; [destruct ka|..]; cbn; rewrite <- ?app_assoc; reflexivity.
Qed.

Lemma load_model_download_witness :
  disk (fresh_world (Model := unit) false) = false /\
  load_model (Some false) (Some tt) (fresh_world (Model := unit) false) =
  (Ret (match Some false with Some true => Some tt | _ => None end),
   {| session := session (fresh_world (Model := unit) false); cache := cache (fresh_world (Model := unit) false);
      disk := match Some false with Some b => b | None => false end;
      log := log (fresh_world (Model := unit) false) ++ ev_download ::
               match Some false with
               | None => [ev_error "Error loading model"]
               | Some true =>
                   ev_success "Model downloaded successfully!" :: ev_keras_load ::
                   match Some tt with
                   | Some _ => []
                   | None => [ev_error "Error loading model"]
                   end
               | Some false =>
                   [ev_success "Model downloaded successfully!"; ev_keras_load;
                    ev_error "Error loading model"]
               end |}).
Proof.
  assert (H : disk (fresh_world (Model := unit) false) = false) by reflexivity.
  split; [exact H|]. apply (load_model_download (Some false) (Some tt) (fresh_world (Model := unit) false) H).
Defined.


(** X10: an upload that passes validation but cannot be decoded is
    reported twice ("Error processing image", then "Failed to process the
    image") and [render_image_display] returns [None]; nothing is raised
    and nothing else changes. *)
Theorem render_image_display_decode_failure {Model : Type}
    (open_image : UploadedFile -> option Image) (convert_px : PilMode -> list Z -> RGB)
    (resample_rgb : list (list RGB) -> nat * nat -> nat * nat -> RGB)
    (resample_bands : list (list (list Z)) -> nat * nat -> nat * nat -> list Z)
    (f : UploadedFile) (settings : Settings) (w : World Model) :
  existsb (String.eqb (file_extension (name f))) ALLOWED_EXTENSIONS = true ->
  (size f <= MAX_UPLOAD_BYTES)%Z ->
  open_image f = None ->
  render_image_display open_image convert_px resample_rgb resample_bands f settings w =
  (Ret None, {| session := session w; cache := cache w; disk := disk w;
                log := log w ++ [ev_image_open; ev_error "Error processing image";
                                 ev_error "Failed to process the image. Please try a different file."] |}).
Proof.
  intros He Hs Ho. destruct w as [s c d l].
  unfold render_image_display, validate_image, preprocess_image, image_open,
    try_except, bind, emit, ret, raise.
  cbv beta zeta. rewrite He, Ho. cbn -[MAX_UPLOAD_BYTES].
  replace (MAX_UPLOAD_BYTES <? size f)%Z with false by (symmetry; apply Z.ltb_ge; exact Hs).
  cbn. rewrite <- !app_assoc. reflexivity.
Qed.

Lemma render_image_display_decode_failure_witness :
  existsb (String.eqb (file_extension (name (example_upload "cat.jpeg" 45000))))
    ALLOWED_EXTENSIONS = true /\
  (size (example_upload "cat.jpeg" 45000) <= MAX_UPLOAD_BYTES)%Z /\
  (fun _ : UploadedFile => @None Image) (example_upload "cat.jpeg" 45000) = None /\
  render_image_display (fun _ : UploadedFile => @None Image) example_convert example_resample
    example_resample_bands (example_upload "cat.jpeg" 45000) (example_settings (4 # 5))
    (fresh_world (Model := unit) false) =
  (Ret None, {| session := session (fresh_world (Model := unit) false); cache := cache (fresh_world (Model := unit) false);
                disk := disk (fresh_world (Model := unit) false);
                log := log (fresh_world (Model := unit) false) ++
                         [ev_image_open; ev_error "Error processing image";
                          ev_error "Failed to process the image. Please try a different file."] |}).
Proof.
  assert (H1 : existsb (String.eqb (file_extension (name (example_upload "cat.jpeg" 45000))))
                 ALLOWED_EXTENSIONS = true) by reflexivity.
  assert (H2 : (size (example_upload "cat.jpeg" 45000) <= MAX_UPLOAD_BYTES)%Z)
    by (vm_compute; discriminate).
  assert (H3 : (fun _ : UploadedFile => @None Image) (example_upload "cat.jpeg" 45000) = None)
    by reflexivity.
  split; [exact H1|]. split; [exact H2|]. split; [exact H3|].
  apply (render_image_display_decode_failure (fun _ : UploadedFile => @None Image)
           example_convert example_resample example_resample_bands
           (example_upload "cat.jpeg" 45000) (example_settings (4 # 5)) (fresh_world (Model := unit) false)
           H1 H2 H3).
Defined.

(** X11: the script as a whole never ends in an uncaught exception: the
    top-level [try]/[except Exception] turns every exception of [main] into
    the "Application Error" messages; only [st.stop()] ends a run early. *)
Theorem run_script_never_raises {Model : Type} (gd : option bool) (ka : option Model)
    (mp : Model -> Tensor -> option (list (list Q)))
    (oi : UploadedFile -> option Image) (cp : PilMode -> list Z -> RGB)
    (rr : list (list RGB) -> nat * nat -> nat * nat -> RGB)
    (rb : list (list (list Z)) -> nat * nat -> nat * nat -> list Z)
    (i : UserInput) (w : World Model) :
  fst (run_script gd ka mp oi cp rr rb i w) = Ret tt \/
  fst (run_script gd ka mp oi cp rr rb i w) = Halt.
Proof.
  unfold run_script, try_except.
  destruct (bind (main gd ka mp oi cp rr rb i) (fun _ => ret tt) w) as [[[]|e|] w1] eqn:E.
  - left. reflexivity.
  - left. reflexivity.
  - right. reflexivity.
Qed.

(** *** Runs that avoid some events *)

Lemma log_avoids_refl {Model : Type} (bad : Event -> bool) (w : World Model) :
  log_avoids bad w w.
Proof. exists []. rewrite app_nil_r. split; reflexivity. Qed.

Lemma log_avoids_trans {Model : Type} (bad : Event -> bool) (w1 w2 w3 : World Model) :
  log_avoids bad w1 w2 -> log_avoids bad w2 w3 -> log_avoids bad w1 w3.
Proof.
  intros [n1 [L1 F1]] [n2 [L2 F2]]. exists (n1 ++ n2)%list. split.
  - rewrite L2, L1. symmetry. apply app_assoc.
  - rewrite forallb_app, F1, F2. reflexivity.
Qed.

Lemma log_avoids_in {Model : Type} (bad : Event -> bool) (w w' : World Model) :
  log_avoids bad w w' ->
  exists new, log w' = (log w ++ new)%list /\ forall e, In e new -> bad e = false.
Proof.
  intros [n [L F]]. exists n. split; [exact L|]. intros e He.
  rewrite forallb_forall in F. specialize (F e He). destruct (bad e); [discriminate|reflexivity].
Qed.

Section Preserves.
Context {Model : Type}.
Variable I : World Model -> Prop.
Variable bad : Event -> bool.

Lemma pres_noop {A : Type} (m : M Model A) :
  (forall w, snd (m w) = w) -> preserves I bad m.
Proof. intros E w H. rewrite E. split; [exact H | apply log_avoids_refl]. Qed.

Lemma pres_read_key {A : Type} (v : option A) : preserves I bad (read_key v).
Proof. apply pres_noop. intro w. destruct v; reflexivity. Qed.

Lemma pres_getitem {A : Type} (xs : list A) (n : nat) : preserves I bad (getitem xs n).
Proof. apply pres_noop. intro w. unfold getitem. destruct (nth_error xs n); reflexivity. Qed.

Lemma pres_emit (e : Event) :
  bad e = false -> (forall w, I w -> I (snd (emit e w))) -> preserves I bad (emit e).
Proof.
  intros B HI w H. split; [apply HI, H|]. exists [e]. split; [reflexivity|].
  cbn. rewrite B. reflexivity.
Qed.

Lemma pres_put (m : M Model unit) :
  (forall w, I w -> I (snd (m w))) -> (forall w, log (snd (m w)) = log w) ->
  preserves I bad m.
Proof.
  intros HI L w H. split; [apply HI, H|]. exists []. rewrite app_nil_r. split; [apply L|reflexivity].
Qed.

Lemma pres_bind {A B : Type} (m : M Model A) (k : A -> M Model B) :
  preserves I bad m -> (forall a, preserves I bad (k a)) -> preserves I bad (bind m k).
Proof.
  intros Hm Hk w H. destruct (Hm w H) as [H1 R1]. unfold bind.
  destruct (m w) as [[a | e |] w1]; cbn in *; [| split; assumption | split; assumption].
  destruct (Hk a w1 H1) as [H2 R2]. split; [exact H2|]. exact (log_avoids_trans bad _ _ _ R1 R2).
Qed.

Lemma pres_bind_known {A B : Type} (m : M Model A) (k : A -> M Model B) (a0 : A) :
  (forall w, fst (m w) = Ret a0) ->
  preserves I bad m -> preserves I bad (k a0) -> preserves I bad (bind m k).
Proof.
  intros E Hm Hk w H. destruct (Hm w H) as [H1 R1]. specialize (E w). unfold bind.
  destruct (m w) as [o w1]; cbn in *. subst o.
  destruct (Hk w1 H1) as [H2 R2]. split; [exact H2|]. exact (log_avoids_trans bad _ _ _ R1 R2).
Qed.

Lemma pres_try {A : Type} (m : M Model A) (h : Exn -> M Model A) :
  preserves I bad m -> (forall e, preserves I bad (h e)) -> preserves I bad (try_except m h).
Proof.
  intros Hm Hh w H. destruct (Hm w H) as [H1 R1]. unfold try_except.
  destruct (m w) as [[a | e |] w1]; cbn in *; [split; assumption | | split; assumption].
  destruct (Hh e w1 H1) as [H2 R2]. split; [exact H2|]. exact (log_avoids_trans bad _ _ _ R1 R2).
Qed.

End Preserves.

Ltac pres_step leaf :=
  first [ leaf | pres_rule ]; cbv beta iota zeta delta [negb]
with pres_rule :=
  match goal with
  | |- preserves _ _ (bind _ _) => apply pres_bind; [|intro]
  | |- preserves _ _ (try_except _ _) => apply pres_try; [|intro]
  | |- preserves _ _ (emit _) =>
      apply pres_emit; [reflexivity | let H := fresh in intros ? H; exact H]
  | |- preserves _ _ (put_session _) =>
      apply pres_put; [let H := fresh in intros ? H; exact H | intro; reflexivity]
  | |- preserves _ _ (put_cache _) =>
      apply pres_put; [let H := fresh in intros ? H; exact H | intro; reflexivity]
  | |- preserves _ _ (put_disk _) =>
      apply pres_put; [let H := fresh in intros ? H; exact H | intro; reflexivity]
  | |- preserves _ _ (read_key _) => apply pres_read_key
  | |- preserves _ _ (getitem _ _) => apply pres_getitem
  | |- preserves _ _ (match ?x with _ => _ end) => destruct x
  | |- preserves _ _ _ => apply pres_noop; intro; reflexivity
  end.

Ltac pres_tac leaf := repeat pres_step leaf.

Section Gating.
Context {Model : Type}.
Variable gd : option bool.
Variable ka : option Model.
Variable mp : Model -> Tensor -> option (list (list Q)).
Variable oi : UploadedFile -> option Image.
Variable cp : PilMode -> list Z -> RGB.
Variable rr : list (list RGB) -> nat * nat -> nat * nat -> RGB.
Variable rb : list (list (list Z)) -> nat * nat -> nat * nat -> list Z.

Ltac unfold_script :=
  unfold run_script, main, render_sidebar, load_model_cached, load_model,
    render_image_display, validate_image, preprocess_image, image_open, predict_image,
    call_predict, render_prediction_results.

Ltac validate_leaf :=
  lazymatch goal with
  | |- preserves _ _ (bind (render_image_display _ _ _ _ _ _) _) =>
      eapply pres_bind_known; [ solve [eauto] | | ]
  | |- preserves _ _ (render_image_display _ _ _ _ _ _) => unfold render_image_display
  | |- preserves _ _ (bind (validate_image _) _) =>
      eapply pres_bind_known; [ solve [eauto] | | ]
  | |- preserves _ _ (validate_image _) => unfold validate_image
  end.

Lemma run_script_no_upload (i : UserInput) :
  upload i = None -> preserves (fun _ => True) is_decode_or_forward (run_script gd ka mp oi cp rr rb i).
Proof. intro Hu. unfold_script. rewrite Hu. cbv beta iota zeta. pres_tac fail. Qed.

Lemma run_script_rejected_upload (i : UserInput) (f : UploadedFile) :
  upload i = Some f ->
  existsb (String.eqb (file_extension (name f))) ALLOWED_EXTENSIONS = false \/
  (MAX_UPLOAD_BYTES < size f)%Z ->
  preserves (fun _ => True) is_decode_or_forward (run_script gd ka mp oi cp rr rb i).
Proof.
  intros Hu Hv.
  assert (Hval : forall w : World Model, fst (validate_image (Some f) w) = Ret false).
  { intro w. unfold validate_image. cbv beta zeta.
    destruct Hv as [He | Hs]; [rewrite He; reflexivity|].
    apply Z.ltb_lt in Hs. rewrite Hs.
    destruct (negb (existsb (String.eqb (file_extension (name f))) ALLOWED_EXTENSIONS));
      reflexivity. }
  assert (Hdisp : forall s (w : World Model),
             fst (render_image_display oi cp rr rb f s w) = Ret None).
  { intros s w. unfold render_image_display, bind.
    specialize (Hval w). destruct (validate_image (Some f) w) as [o w1].
    cbn in Hval. subst o. reflexivity. }
  unfold run_script, main, render_sidebar, load_model_cached, load_model,
    preprocess_image, image_open, predict_image,
    call_predict, render_prediction_results.
  rewrite Hu. cbv beta iota zeta.
  pres_tac ltac:(idtac; validate_leaf).
Qed.

Lemma run_script_not_clicked (i : UserInput) :
  predict_clicked i = false -> preserves (fun _ => True) is_forward (run_script gd ka mp oi cp rr rb i).
Proof. intro Hc. unfold_script. rewrite Hc. cbv beta iota zeta. pres_tac fail. Qed.

End Gating.


Lemma log_avoids_two {Model : Type} (bad : Event -> bool) (w w' : World Model) (e1 e2 : Event) :
  bad e1 = true -> bad e2 = true -> log_avoids bad w w' ->
  exists new, log w' = (log w ++ new)%list /\ ~ In e1 new /\ ~ In e2 new.
Proof.
  intros B1 B2 R. destruct (log_avoids_in bad w w' R) as [new [L F]].
  exists new. split; [exact L|]. split; intro Hin.
  - rewrite (F _ Hin) in B1. discriminate.
  - rewrite (F _ Hin) in B2. discriminate.
Qed.

(** X12: when no file is uploaded, or the uploaded file fails
    [validate_image] (extension not allowed or more than 10 MiB), a script
    run neither decodes an image nor calls the model: the run only appends
    to the log, and what it appends contains no [Image.open] and no
    [model.predict] event. *)
Theorem run_script_skips_decode_without_valid_upload {Model : Type}
    (gd : option bool) (ka : option Model) (mp : Model -> Tensor -> option (list (list Q)))
    (oi : UploadedFile -> option Image) (cp : PilMode -> list Z -> RGB)
    (rr : list (list RGB) -> nat * nat -> nat * nat -> RGB)
    (rb : list (list (list Z)) -> nat * nat -> nat * nat -> list Z)
    (i : UserInput) (w : World Model) :
  (upload i = None \/
   exists f, upload i = Some f /\
     (existsb (String.eqb (file_extension (name f))) ALLOWED_EXTENSIONS = false \/
      (MAX_UPLOAD_BYTES < size f)%Z)) ->
  exists new, log (snd (run_script gd ka mp oi cp rr rb i w)) = (log w ++ new)%list /\
    ~ In ev_image_open new /\ ~ In ev_model_predict new.
Proof.
  intros [Hu | [f [Hu Hv]]]; apply log_avoids_two with (bad := is_decode_or_forward);
    try reflexivity.
  - exact (proj2 (run_script_no_upload gd ka mp oi cp rr rb i Hu w I)).
  - exact (proj2 (run_script_rejected_upload gd ka mp oi cp rr rb i f Hu Hv w I)).
Qed.

Lemma run_script_skips_decode_without_valid_upload_witness :
  (upload (example_click (example_upload "cat.gif" 45000) (4 # 5)) = None \/
   exists f, upload (example_click (example_upload "cat.gif" 45000) (4 # 5)) = Some f /\
     (existsb (String.eqb (file_extension (name f))) ALLOWED_EXTENSIONS = false \/
      (MAX_UPLOAD_BYTES < size f)%Z)) /\
  exists new,
    log (snd (run_script (Some true) (Some tt) (fun (_ : unit) (_ : Tensor) => Some [[1 # 2]])
                example_open example_convert example_resample example_resample_bands
                (example_click (example_upload "cat.gif" 45000) (4 # 5)) example_loaded_world))
    = (log example_loaded_world ++ new)%list /\
    ~ In ev_image_open new /\ ~ In ev_model_predict new.
Proof.
  assert (H : upload (example_click (example_upload "cat.gif" 45000) (4 # 5)) = None \/
   exists f, upload (example_click (example_upload "cat.gif" 45000) (4 # 5)) = Some f /\
     (existsb (String.eqb (file_extension (name f))) ALLOWED_EXTENSIONS = false \/
      (MAX_UPLOAD_BYTES < size f)%Z)).
  { right. exists (example_upload "cat.gif" 45000). split; [reflexivity|].
    left. vm_compute. reflexivity. }
  split; [exact H|].
  apply (run_script_skips_decode_without_valid_upload (Some true) (Some tt)
           (fun (_ : unit) (_ : Tensor) => Some [[1 # 2]]) example_open example_convert
           example_resample example_resample_bands _ example_loaded_world H).
Defined.

(** X13: when the "Analyze" button is not clicked, a script run never calls
    the model: it only appends to the log, and what it appends contains no
    [model.predict] event (the upload may still be validated and decoded). *)
Theorem run_script_no_forward_without_click {Model : Type}
    (gd : option bool) (ka : option Model) (mp : Model -> Tensor -> option (list (list Q)))
    (oi : UploadedFile -> option Image) (cp : PilMode -> list Z -> RGB)
    (rr : list (list RGB) -> nat * nat -> nat * nat -> RGB)
    (rb : list (list (list Z)) -> nat * nat -> nat * nat -> list Z)
    (i : UserInput) (w : World Model) :
  predict_clicked i = false ->
  exists new, log (snd (run_script gd ka mp oi cp rr rb i w)) = (log w ++ new)%list /\
    ~ In ev_model_predict new.
Proof.
  intro Hc.
  destruct (log_avoids_in is_forward _ _
              (proj2 (run_script_not_clicked gd ka mp oi cp rr rb i Hc w I)))
    as [new [L F]].
  exists new. split; [exact L|]. intro Hin. specialize (F _ Hin). discriminate.
Qed.

Lemma run_script_no_forward_without_click_witness :
  predict_clicked {| widgets := example_settings (4 # 5);
                     upload := Some (example_upload "cat.png" 45000);
                     predict_clicked := false |} = false /\
  exists new,
    log (snd (run_script (Some true) (Some tt) (fun (_ : unit) (_ : Tensor) => Some [[1 # 2]])
                example_open example_convert example_resample example_resample_bands
                {| widgets := example_settings (4 # 5);
                   upload := Some (example_upload "cat.png" 45000);
                   predict_clicked := false |} example_loaded_world))
    = (log example_loaded_world ++ new)%list /\ ~ In ev_model_predict new.
Proof.
  split; [reflexivity|].
  apply (run_script_no_forward_without_click (Some true) (Some tt)
           (fun (_ : unit) (_ : Tensor) => Some [[1 # 2]]) example_open example_convert
           example_resample example_resample_bands _ example_loaded_world).
  reflexivity.
Defined.

Section NoReload.
Context {Model : Type}.
Variable gd : option bool.
Variable ka : option Model.
Variable mp : Model -> Tensor -> option (list (list Q)).
Variable oi : UploadedFile -> option Image.
Variable cp : PilMode -> list Z -> RGB.
Variable rr : list (list RGB) -> nat * nat -> nat * nat -> RGB.
Variable rb : list (list (list Z)) -> nat * nat -> nat * nat -> list Z.
Variable v : option Model.
Variable d : bool.

Definition cache_hit_state (w : World Model) : Prop := cache w = Some v /\ disk w = d.

Lemma load_model_cached_hit_preserves :
  preserves cache_hit_state is_model_fetch (load_model_cached gd ka).
Proof.
  intros w H. pose proof H as [Hc _].
  unfold load_model_cached, bind, get_cache. rewrite Hc. cbn.
  split; [exact H | apply log_avoids_refl].
Qed.

Lemma run_script_cache_hit_preserves (i : UserInput) :
  preserves cache_hit_state is_model_fetch (run_script gd ka mp oi cp rr rb i).
Proof.
  unfold run_script, main, render_sidebar, render_image_display, validate_image,
    preprocess_image, image_open, predict_image, call_predict, render_prediction_results.
  cbv beta iota zeta.
  pres_tac ltac:(idtac; lazymatch goal with
                 | |- preserves _ _ (load_model_cached _ _) => apply load_model_cached_hit_preserves
                 end).
Qed.

Lemma run_all_cache_hit_preserves (acts : list Action) (w : World Model) :
  cache_hit_state w ->
  cache_hit_state (run_all gd ka mp oi cp rr rb acts w) /\
  log_avoids is_model_fetch w (run_all gd ka mp oi cp rr rb acts w).
Proof.
  unfold run_all. revert w. induction acts as [|a acts IH]; intros w H; cbn.
  - split; [exact H | apply log_avoids_refl].
  - destruct a as [i|].
    + destruct (run_script_cache_hit_preserves i w H) as [H1 R1].
      destruct (IH _ H1) as [H2 R2]. split; [exact H2|].
      exact (log_avoids_trans _ _ _ _ R1 R2).
    + destruct (IH {| session := empty_session; cache := cache w; disk := disk w; log := log w |} H)
        as [H2 R2].
      split; [exact H2|].
      exact (log_avoids_trans _ _ _ _ (log_avoids_refl _ w) R2).
Qed.

End NoReload.

(** X14: [@st.cache_resource] on [load_model]: once the resource cache
    holds a model (or the [None] of a failed load), no sequence of script
    reruns and new browser sessions downloads or loads the model again. The
    cache entry and the model file on disk stay as they are, and the log
    only grows, by events none of which is a download or a
    [keras.models.load_model] call. *)
Theorem run_all_never_refetches_cached_model {Model : Type}
    (gd : option bool) (ka : option Model) (mp : Model -> Tensor -> option (list (list Q)))
    (oi : UploadedFile -> option Image) (cp : PilMode -> list Z -> RGB)
    (rr : list (list RGB) -> nat * nat -> nat * nat -> RGB)
    (rb : list (list (list Z)) -> nat * nat -> nat * nat -> list Z)
    (v : option Model) (acts : list Action) (w : World Model) :
  cache w = Some v ->
  cache (run_all gd ka mp oi cp rr rb acts w) = Some v /\
  disk (run_all gd ka mp oi cp rr rb acts w) = disk w /\
  exists new, log (run_all gd ka mp oi cp rr rb acts w) = (log w ++ new)%list /\
    ~ In ev_download new /\ ~ In ev_keras_load new.
Proof.
  intro Hc.
  destruct (run_all_cache_hit_preserves gd ka mp oi cp rr rb v (disk w) acts w (conj Hc eq_refl))
    as [[Hc' Hd'] R].
  split; [exact Hc'|]. split; [exact Hd'|].
  apply log_avoids_two with (bad := is_model_fetch); [reflexivity | reflexivity | exact R].
Qed.

Lemma run_all_never_refetches_cached_model_witness :
  cache example_loaded_world = Some (Some tt) /\
  cache (run_all (Some true) (Some tt) (fun (_ : unit) (_ : Tensor) => Some [[1 # 2]])
           example_open example_convert example_resample example_resample_bands
           [NewSession; Rerun (example_click (example_upload "cat.png" 45000) (4 # 5))]
           example_loaded_world) = Some (Some tt) /\
  disk (run_all (Some true) (Some tt) (fun (_ : unit) (_ : Tensor) => Some [[1 # 2]])
          example_open example_convert example_resample example_resample_bands
          [NewSession; Rerun (example_click (example_upload "cat.png" 45000) (4 # 5))]
          example_loaded_world) = disk example_loaded_world /\
  exists new,
    log (run_all (Some true) (Some tt) (fun (_ : unit) (_ : Tensor) => Some [[1 # 2]])
           example_open example_convert example_resample example_resample_bands
           [NewSession; Rerun (example_click (example_upload "cat.png" 45000) (4 # 5))]
           example_loaded_world) = (log example_loaded_world ++ new)%list /\
    ~ In ev_download new /\ ~ In ev_keras_load new.
Proof.
  split; [reflexivity|].
  apply (run_all_never_refetches_cached_model (Some true) (Some tt)
           (fun (_ : unit) (_ : Tensor) => Some [[1 # 2]]) example_open example_convert
           example_resample example_resample_bands (Some tt) _ example_loaded_world).
  reflexivity.
Defined.
